(** * District-Filter-Bot: the filter authoring conversation of [main.py]

    A shallow embedding of the handlers of [main.py] (rate limiter, durable
    filter store, the three-stage authoring conversation and its cancel and
    timeout paths), followed by the properties the specification states
    about them.

    Modelling conventions.
    - Python [str] values are Rocq [string]s; the models of [strip],
      [lower] and [int] below are exact on ASCII text.
    - [time.time()] readings are rationals: the limiter only subtracts two
      readings and compares the difference with a constant.
    - Python dicts whose iteration order is observable (the filter store
      and every JSON object) are association lists with [Dict.set]
      overwriting in place and appending new keys; the rate limiter's
      table, whose order is never observed, is a [gmap].
    - Handlers are computations in a state-and-exception monad over
      [world]; a reply is an entry appended to the [sent] log.  Results of
      the collaborators (clock, disk, Telegram) come from an [env]. *)

From Stdlib Require Import ZArith QArith Lqa String Ascii List Bool Lia.
From stdpp Require Import gmap strings.
Import ListNotations.

Local Open Scope Z_scope.

(** ** Text primitives *)

Module Text.

(** [str.isspace] on the ASCII range: TAB..CR, FS..US and the blank. *)
Definition is_space (c : ascii) : bool :=
  let n := N_of_ascii c in
  (((9 <=? n) && (n <=? 13)) || ((28 <=? n) && (n <=? 32)))%N.

Fixpoint lstrip (s : string) : string :=
  match s with
  | EmptyString => EmptyString
  | String c r => if is_space c then lstrip r else s
  end.

Fixpoint rstrip (s : string) : string :=
  match s with
  | EmptyString => EmptyString
  | String c r =>
      match rstrip r with
      | EmptyString => if is_space c then EmptyString else String c EmptyString
      | r' => String c r'
      end
  end.

(** [s.strip()] *)
Definition strip (s : string) : string := rstrip (lstrip s).

Definition lower_char (c : ascii) : ascii :=
  let n := N_of_ascii c in
  if ((65 <=? n) && (n <=? 90))%N then ascii_of_N (n + 32) else c.

(** [s.lower()] *)
Fixpoint lower (s : string) : string :=
  match s with
  | EmptyString => EmptyString
  | String c r => String (lower_char c) (lower r)
  end.

(** [c in s] for a one-character [c] *)
Fixpoint contains_char (c : ascii) (s : string) : bool :=
  match s with
  | EmptyString => false
  | String a r => Ascii.eqb a c || contains_char c r
  end.

(** [s.split(sep)] for a one-character separator *)
Fixpoint split (sep : ascii) (s : string) : list string :=
  match s with
  | EmptyString => [EmptyString]
  | String c r =>
      if Ascii.eqb c sep then EmptyString :: split sep r
      else match split sep r with
           | h :: t => String c h :: t
           | [] => [String c EmptyString]
           end
  end.

(** [s.split(sep, 1)]: the text before the first separator and, when
    there is one, the text after it. *)
Fixpoint split1 (sep : ascii) (s : string) : string * option string :=
  match s with
  | EmptyString => (EmptyString, None)
  | String c r =>
      if Ascii.eqb c sep then (EmptyString, Some r)
      else let '(h, t) := split1 sep r in (String c h, t)
  end.

(** [s.startswith(p)] *)
Definition startswith (p s : string) : bool := String.prefix p s.

(** [needle in hay] on two strings *)
Definition contains (needle hay : string) : bool :=
  match String.index 0 needle hay with Some _ => true | None => false end.

Definition is_digit (c : ascii) : bool :=
  let n := N_of_ascii c in ((48 <=? n) && (n <=? 57))%N.

Definition digit_val (c : ascii) : Z := Z.of_N (N_of_ascii c) - 48.

Definition digit_char (d : Z) : ascii := ascii_of_N (Z.to_N (48 + d)).

(** Decimal digits of a non-negative [n], most significant first, pushed
    in front of [acc]. *)
Fixpoint digits (fuel : nat) (n : Z) (acc : string) : string :=
  let acc' := String (digit_char (n mod 10)) acc in
  match fuel with
  | O => acc'
  | S f => if n <? 10 then acc' else digits f (n / 10) acc'
  end.

(** [str(z)] for an [int] (CPython's configurable cap on the number of
    digits, 4300 by default, is far above any chat id and is left out) *)
Definition str_of_int (z : Z) : string :=
  if z <? 0 then String "-" (digits (Z.to_nat (Z.log2 (- z))) (- z) EmptyString)
  else digits (Z.to_nat (Z.log2 z)) z EmptyString.

(** The digit part of an integer literal: decimal digits, single
    underscores allowed between two digits. *)
Fixpoint parse_digits (s : string) (acc : Z) (after_digit : bool) : option Z :=
  match s with
  | EmptyString => if after_digit then Some acc else None
  | String c r =>
      if is_digit c then parse_digits r (10 * acc + digit_val c) true
      else if Ascii.eqb c "_" then
             if after_digit then parse_digits r acc false else None
           else None
  end.

(** [int(s)]: [None] stands for [ValueError]. *)
Definition int_of_str (s : string) : option Z :=
  match strip s with
  | String "+" r => parse_digits r 0 false
  | String "-" r => Z.opp <$> parse_digits r 0 false
  | r => parse_digits r 0 false
  end.

(** Every character of [s] satisfies [p]. *)
Fixpoint all_chars (p : ascii -> bool) (s : string) : bool :=
  match s with
  | EmptyString => true
  | String c r => p c && all_chars p r
  end.

Definition plain (c : ascii) : bool := negb (is_space c).

End Text.

(** ** Python values and insertion-ordered dicts *)

(** The values [json.load] produces and [json.dump] accepts (floats are
    never written by the bot and are left out). *)
#[warnings="-register-all"] Inductive pyval : Type :=
| PNone
| PBool (b : bool)
| PInt (z : Z)
| PStr (s : string)
| PList (l : list pyval)
| PDict (kv : list (string * pyval)).

Module Dict.
Section Ops.
Context {K V : Type} `{EqDecision K}.

(** A dict as the list of its items, oldest key first. *)
Definition t := list (K * V).

Fixpoint get (k : K) (d : t) : option V :=
  match d with
  | [] => None
  | (k', v) :: r => if decide (k' = k) then Some v else get k r
  end.

Definition mem (k : K) (d : t) : bool := bool_decide (is_Some (get k d)).

(** [d[k] = v]: an existing key keeps its position, a new one goes last. *)
Fixpoint set (k : K) (v : V) (d : t) : t :=
  match d with
  | [] => [(k, v)]
  | (k', v') :: r =>
      if decide (k' = k) then (k', v) :: r else (k', v') :: set k v r
  end.

Definition keys (d : t) : list K := d.*1.

(** No key occurs twice: what every Python dict satisfies. *)
Definition wf (d : t) : Prop := NoDup (keys d).
End Ops.
Arguments t : clear implicits.

(** [{f(k): v for k, v in items}], the items added to [acc] in order. *)
Fixpoint remap {K K' V : Type} `{EqDecision K'}
    (f : K -> K') (items : list (K * V)) (acc : t K' V) : t K' V :=
  match items with
  | [] => acc
  | (k, v) :: r => remap f r (set (f k) v acc)
  end.

(** The same when [f] can raise: the first failure ends the loop. *)
Fixpoint remap_partial {K K' V : Type} `{EqDecision K'}
    (f : K -> option K') (items : list (K * V)) (acc : t K' V)
  : option (t K' V) :=
  match items with
  | [] => Some acc
  | (k, v) :: r =>
      match f k with
      | Some k' => remap_partial f r (set k' v acc)
      | None => None
      end
  end.

(** The items with every key [k] replaced by [f k]. *)
Definition rekey {K K' V : Type} (f : K -> K') (items : list (K * V))
  : list (K' * V) :=
  (fun kv => (f kv.1, kv.2)) <$> items.
End Dict.

Definition opt_str (o : option string) : pyval :=
  match o with Some s => PStr s | None => PNone end.

(** Truth value of a Python object, as [if x:] tests it. *)
Definition py_truthy (v : pyval) : bool :=
  match v with
  | PNone => false
  | PBool b => b
  | PInt z => negb (z =? 0)
  | PStr s => negb (String.eqb s EmptyString)
  | PList l => match l with [] => false | _ => true end
  | PDict kv => match kv with [] => false | _ => true end
  end.

(** [len(x)]; [None] stands for [TypeError]. *)
Definition py_len (v : pyval) : option nat :=
  match v with
  | PStr s => Some (String.length s)
  | PList l => Some (length l)
  | PDict kv => Some (length kv)
  | _ => None
  end.

Definition is_pstr (s : string) (v : pyval) : bool :=
  match v with PStr s' => String.eqb s' s | _ => false end.

(** [s in x] for a string [s]; [None] stands for [TypeError]. *)
Definition py_contains (s : string) (v : pyval) : option bool :=
  match v with
  | PDict kv => Some (Dict.mem s kv)
  | PList l => Some (existsb (is_pstr s) l)
  | PStr hay => Some (Text.contains s hay)
  | _ => None
  end.

(** [x[s] = v] for a string [s]; only a dict supports it. *)
Definition py_setitem (s : string) (v : pyval) (x : pyval) : option pyval :=
  match x with
  | PDict kv => Some (PDict (Dict.set s v kv))
  | _ => None
  end.

(** ** Data of the bot *)

Definition AWAITING_IMAGE : Z := 1.
Definition AWAITING_BUTTONS : Z := 2.
Definition AWAITING_FILTER_TRIGGER : Z := 3.
(** [ConversationHandler.END] *)
Definition END : Z := -1.

Definition IMAGES_DIR : string := "data/images".
Definition RATE_LIMIT : nat := 5.
Definition TIME_WINDOW : Q := 60%Q.

Record button := { btn_text : string; btn_url : string }.

(** The dict [{"text": text, "url": url}] appended to [buttons_data]. *)
Definition button_dict (b : button) : pyval :=
  PDict [("text"%string, PStr (btn_text b)); ("url"%string, PStr (btn_url b))].

(** [context.user_data]: each key the handlers use is either absent
    ([None]) or holds a value; [Some None] is a key holding Python's
    [None]. *)
Record user_data_t := {
  filter_chat_id : option Z;
  timeout_job : option string;
  filter_image_path : option (option string);
  filter_image_filename : option (option string);
  filter_buttons : option (list button)
}.

Definition user_data_empty : user_data_t :=
  {| filter_chat_id := None; timeout_job := None; filter_image_path := None;
     filter_image_filename := None; filter_buttons := None |}.

(** What reading [data/filters.json] as UTF-8 and [json.load] make of it. *)
Inductive file_content :=
| Malformed              (* text on which the decoder raises JSONDecodeError *)
| Document (j : pyval)   (* text that decodes to [j] *)
| Undecodable.           (* bytes that are not UTF-8: reading them raises
                            UnicodeDecodeError *)

(** A job of the job queue, as [run_once] registers it. *)
Record job := {
  job_name : string;
  job_delay : Z;
  job_chat_id : Z;
  job_user_id : Z
}.

(** One line of the listing [list_filters] builds: the position, the
    trigger, whether "(with image)" is shown, and the number shown in
    "(N buttons)" when that part is. *)
Record filter_line := {
  line_number : nat;
  line_trigger : string;
  line_image : bool;
  line_buttons : option nat
}.

(** The texts the handlers send, one constructor per literal, with the
    interpolated values as arguments. *)
Inductive message :=
| MsgTooQuickly            (* You're making requests too quickly... *)
| MsgNeedAdmin             (* You need to be an admin to create filters... *)
| MsgSendImage             (* Please send an image ... within 60 seconds *)
| MsgTimeUp                (* Time's up! Filter creation canceled... *)
| MsgImageReceived         (* Image received! Now, please send the buttons *)
| MsgDownloadFailed        (* Failed to download image... *)
| MsgSkippedImage          (* Skipped image. Now, please send the buttons *)
| MsgSkippedButtons        (* Skipped buttons. Finally, please send the trigger *)
| MsgInvalidButtonFormat   (* Invalid button format. Please use text|url... *)
| MsgInvalidURL (url : string)   (* Invalid URL: {url} ... *)
| MsgButtonsPreview (keyboard : list (list button))
                           (* Buttons configured! Here's a preview: *)
| MsgSendTrigger           (* Finally, please send the trigger word... *)
| MsgTriggerExists (trigger : string)
                           (* A filter with trigger '{trigger}' already exists *)
| MsgSaveIssue             (* There was an issue saving your filter, but it
                              will work until the bot restarts. *)
| MsgFilterCreated (trigger : string) (image : bool) (buttons : nat)
                           (* Filter created successfully! ... *)
| MsgCanceled              (* Operation canceled. *)
| MsgNoFilters             (* No filters found in this chat. *)
| MsgFilterList (lines : list filter_line).
                           (* List of filters in this chat: ... *)

Inductive log_entry :=
| LogLoadError             (* Error loading filters: ... *)
| LogSaveError             (* Error saving filters: ... *)
| LogRemoveError           (* Error removing temporary image: ... *)
| LogDownloadError.        (* Error downloading image: ... *)

Inductive exn :=
| KeyError | TypeError | ValueError | AttributeError | IndexError
| UnicodeDecodeError.

(** The mutable state the handlers share. *)
Record world := {
  user_request_tracker : gmap Z (list Q);
  filters_cache : Dict.t Z pyval;
  filters_file : option file_content;   (* [None]: the file does not exist *)
  image_files : gset string;            (* paths of the downloaded images *)
  user_data : user_data_t;
  job_queue : list job;
  sent : list (Z * message);            (* chat id, text; oldest first *)
  logged : list log_entry
}.

Inductive write_outcome :=
| WriteOk
| OpenFails      (* [open] raises IOError: the file is left as it was *)
| DumpFails      (* IOError while writing: a truncated file is left *)
| DumpCutsCharacter.
                 (* the same, the file ending inside a multi-byte character *)

Inductive chat_type := Private | Group | Supergroup | Channel.

(** What the collaborators answer during one handler call. *)
Record env := {
  clock : Q;                   (* time.time() *)
  stamp : string;              (* datetime.now().strftime("%Y%m%d_%H%M%S") *)
  iso_now : string;            (* datetime.now().isoformat() *)
  read_fails : bool;           (* reading filters.json raises IOError *)
  write_result : write_outcome;
  admin : bool;                (* result of is_admin *)
  get_file_fails : bool;       (* bot.get_file raises TelegramError *)
  download_fails : bool;       (* download_to_drive raises TelegramError *)
  remove_fails : bool          (* os.remove raises *)
}.

(** The incoming update. *)
Record update := {
  upd_user_id : Z;
  upd_chat_id : Z;
  upd_chat_type : chat_type;
  upd_text : string;
  upd_photo : list string      (* file ids of message.photo *)
}.

(** ** The handler monad *)

Inductive result (A : Type) :=
| Ret (a : A) (w : world)
| Raise (e : exn) (w : world).
Arguments Ret {A} a w.
Arguments Raise {A} e w.

Definition M (A : Type) : Type := world -> result A.

Definition ret {A} (a : A) : M A := fun w => Ret a w.
Definition raise {A} (e : exn) : M A := fun w => Raise e w.
Definition bind {A B} (m : M A) (f : A -> M B) : M B :=
  fun w => match m w with
           | Ret a w' => f a w'
           | Raise e w' => Raise e w'
           end.

#[global] Instance M_ret : MRet M := @ret.
#[global] Instance M_bind : MBind M := fun A B f m => bind m f.

Definition get_world : M world := fun w => Ret w w.
Definition modify (f : world -> world) : M unit := fun w => Ret tt (f w).

(** [o] or, when it is [None], the exception [e]. *)
Definition or_raise {A} (e : exn) (o : option A) : M A :=
  match o with Some a => ret a | None => raise e end.

Definition when (b : bool) (m : M unit) : M unit := if b then m else ret tt.

Definition set_tracker t (w : world) : world :=
  {| user_request_tracker := t; filters_cache := filters_cache w;
     filters_file := filters_file w; image_files := image_files w;
     user_data := user_data w; job_queue := job_queue w; sent := sent w;
     logged := logged w |}.
Definition set_cache c (w : world) : world :=
  {| user_request_tracker := user_request_tracker w; filters_cache := c;
     filters_file := filters_file w; image_files := image_files w;
     user_data := user_data w; job_queue := job_queue w; sent := sent w;
     logged := logged w |}.
Definition set_file f (w : world) : world :=
  {| user_request_tracker := user_request_tracker w;
     filters_cache := filters_cache w; filters_file := f;
     image_files := image_files w; user_data := user_data w;
     job_queue := job_queue w; sent := sent w; logged := logged w |}.
Definition set_images i (w : world) : world :=
  {| user_request_tracker := user_request_tracker w;
     filters_cache := filters_cache w; filters_file := filters_file w;
     image_files := i; user_data := user_data w; job_queue := job_queue w;
     sent := sent w; logged := logged w |}.
Definition set_user_data u (w : world) : world :=
  {| user_request_tracker := user_request_tracker w;
     filters_cache := filters_cache w; filters_file := filters_file w;
     image_files := image_files w; user_data := u; job_queue := job_queue w;
     sent := sent w; logged := logged w |}.
Definition set_jobs j (w : world) : world :=
  {| user_request_tracker := user_request_tracker w;
     filters_cache := filters_cache w; filters_file := filters_file w;
     image_files := image_files w; user_data := user_data w; job_queue := j;
     sent := sent w; logged := logged w |}.
Definition set_sent s (w : world) : world :=
  {| user_request_tracker := user_request_tracker w;
     filters_cache := filters_cache w; filters_file := filters_file w;
     image_files := image_files w; user_data := user_data w;
     job_queue := job_queue w; sent := s; logged := logged w |}.
Definition set_logged l (w : world) : world :=
  {| user_request_tracker := user_request_tracker w;
     filters_cache := filters_cache w; filters_file := filters_file w;
     image_files := image_files w; user_data := user_data w;
     job_queue := job_queue w; sent := sent w; logged := l |}.

(** [await bot.send_message(chat_id, text)] *)
Definition send_message (chat : Z) (m : message) : M unit :=
  modify (fun w => set_sent (sent w ++ [(chat, m)]) w).

(** [await update.message.reply_text(text)] *)
Definition reply_text (u : update) (m : message) : M unit :=
  send_message (upd_chat_id u) m.

(** [logger.error(...)] *)
Definition log_error (l : log_entry) : M unit :=
  modify (fun w => set_logged (logged w ++ [l]) w).

Definition update_user_data (f : user_data_t -> user_data_t) : M unit :=
  modify (fun w => set_user_data (f (user_data w)) w).

(** ** Durable store: [load_filters], [save_filters] *)

(** [data.items()]; only a dict has it ([None]: AttributeError). *)
Definition py_items (data : pyval) : option (list (string * pyval)) :=
  match data with PDict kv => Some kv | _ => None end.

Definition load_filters (e : env) : M (Dict.t Z pyval) :=
  w ← get_world;
  match filters_file w with
  | None => mret []
  | Some content =>
      if read_fails e then log_error LogLoadError ;; mret []
      else match content with
           | Malformed => log_error LogLoadError ;; mret []
           | Document data =>
               items ← or_raise AttributeError (py_items data);
               or_raise ValueError
                 (Dict.remap_partial Text.int_of_str items [])
           | Undecodable => raise UnicodeDecodeError
           end
  end.

Definition save_filters (e : env) (filters_data : Dict.t Z pyval) : M bool :=
  match write_result e with
  | OpenFails => log_error LogSaveError ;; mret false
  | DumpFails =>
      modify (set_file (Some Malformed)) ;;
      log_error LogSaveError ;; mret false
  | DumpCutsCharacter =>
      modify (set_file (Some Undecodable)) ;;
      log_error LogSaveError ;; mret false
  | WriteOk =>
      let json_data := Dict.remap Text.str_of_int filters_data [] in
      modify (set_file (Some (Document (PDict json_data)))) ;;
      mret true
  end.

(** ** Rate limiter: [check_rate_limit] *)

Definition Qltb (x y : Q) : bool := negb (Qle_bool y x).

(** [current_time - t < TIME_WINDOW] *)
Definition in_window (current_time t : Q) : bool :=
  Qltb (current_time - t) TIME_WINDOW.

(** One round of the pruning loop, for the key [uid]. *)
Definition prune_user (current_time : Q) (tracker : gmap Z (list Q)) (uid : Z)
  : gmap Z (list Q) :=
  let kept := List.filter (in_window current_time) (default [] (tracker !! uid)) in
  let tracker' := <[uid := kept]> tracker in
  match kept with
  | [] => delete uid tracker'
  | _ => tracker'
  end.

(** [for uid in list(user_request_tracker.keys()): ...] *)
Definition prune_all (current_time : Q) (tracker : gmap Z (list Q))
  : gmap Z (list Q) :=
  fold_left (prune_user current_time) (map_to_list tracker).*1 tracker.

Definition check_rate_limit (current_time : Q) (user_id : Z) : M bool :=
  modify (fun w =>
    set_tracker (prune_all current_time (user_request_tracker w)) w) ;;
  w ← get_world;
  match user_request_tracker w !! user_id with
  | None =>
      modify (set_tracker (<[user_id := [current_time]]> (user_request_tracker w))) ;;
      mret true
  | Some window =>
      if (length window <? RATE_LIMIT)%nat then
        modify (set_tracker
                  (<[user_id := window ++ [current_time]]> (user_request_tracker w))) ;;
        mret true
      else mret false
  end.

(** What pruning leaves of one entry of the table. *)
Definition prune_entry (current_time : Q) (entry : option (list Q))
  : option (list Q) :=
  match entry with
  | Some window =>
      match List.filter (in_window current_time) window with
      | [] => None
      | kept => Some kept
      end
  | None => None
  end.

(** No window of the table is longer than the limit. *)
Definition windows_bounded (tracker : gmap Z (list Q)) : Prop :=
  forall uid window, tracker !! uid = Some window ->
                     (length window <= RATE_LIMIT)%nat.

(** The answers to successive calls of one user, at the given times. *)
Fixpoint answers (user_id : Z) (times : list Q) (w : world) : list bool :=
  match times with
  | [] => []
  | t :: rest =>
      match check_rate_limit t user_id w with
      | Ret b w' => b :: answers user_id rest w'
      | Raise _ _ => []
      end
  end.

(** ** Conversation handlers *)

Definition with_chat_id v (d : user_data_t) : user_data_t :=
  {| filter_chat_id := v; timeout_job := timeout_job d;
     filter_image_path := filter_image_path d;
     filter_image_filename := filter_image_filename d;
     filter_buttons := filter_buttons d |}.
Definition with_timeout_job v (d : user_data_t) : user_data_t :=
  {| filter_chat_id := filter_chat_id d; timeout_job := v;
     filter_image_path := filter_image_path d;
     filter_image_filename := filter_image_filename d;
     filter_buttons := filter_buttons d |}.
Definition with_image path filename (d : user_data_t) : user_data_t :=
  {| filter_chat_id := filter_chat_id d; timeout_job := timeout_job d;
     filter_image_path := path; filter_image_filename := filename;
     filter_buttons := filter_buttons d |}.
Definition with_buttons v (d : user_data_t) : user_data_t :=
  {| filter_chat_id := filter_chat_id d; timeout_job := timeout_job d;
     filter_image_path := filter_image_path d;
     filter_image_filename := filter_image_filename d;
     filter_buttons := v |}.

Definition stop_conversation (e : env) (u : update) : M Z :=
  w ← get_world;
  match filter_image_path (user_data w) with
  | Some v =>
      (* os.path.exists(None) raises TypeError *)
      path ← or_raise TypeError v;
      if bool_decide (path ∈ image_files w) then
        if remove_fails e then log_error LogRemoveError
        else modify (set_images (image_files w ∖ {[path]}))
      else mret tt
  | None => mret tt
  end ;;
  update_user_data (fun _ => user_data_empty) ;;
  reply_text u MsgCanceled ;;
  mret END.

Definition in_group (t : chat_type) : bool :=
  match t with Group | Supergroup => true | _ => false end.

(** [f"filter_timeout_{user_id}"] *)
Definition timeout_name (user_id : Z) : string :=
  ("filter_timeout_" ++ Text.str_of_int user_id)%string.

(** [context.job_queue.run_once(timeout_callback, 60, data=..., name=...)] *)
Definition run_once (delay : Z) (chat_id user_id : Z) (name : string) : M unit :=
  modify (fun w =>
    set_jobs (job_queue w ++
              [{| job_name := name; job_delay := delay;
                  job_chat_id := chat_id; job_user_id := user_id |}]) w).

Definition filter_command (e : env) (u : update) : M Z :=
  let user_id := upd_user_id u in
  allowed ← check_rate_limit (clock e) user_id;
  if negb allowed then reply_text u MsgTooQuickly ;; mret END
  else
    let chat_id := upd_chat_id u in
    if in_group (upd_chat_type u) && negb (admin e) then
      reply_text u MsgNeedAdmin ;; mret END
    else
      update_user_data (with_chat_id (Some chat_id)) ;;
      reply_text u MsgSendImage ;;
      run_once 60 chat_id user_id (timeout_name user_id) ;;
      update_user_data (with_timeout_job (Some (timeout_name user_id))) ;;
      mret AWAITING_IMAGE.

Definition timeout_callback (j : job) : M unit :=
  send_message (job_chat_id j) MsgTimeUp.

(** The opening block of [receive_image] and of [skip_image]: every job
    registered under the name kept in [user_data] is removed. *)
Definition remove_timeout_jobs : M unit :=
  w ← get_world;
  match timeout_job (user_data w) with
  | Some name =>
      when (negb (String.eqb name EmptyString))
        (modify (set_jobs
           (List.filter (fun j => negb (String.eqb (job_name j) name))
                        (job_queue w))))
  | None => mret tt
  end.

Definition receive_image (e : env) (u : update) : M Z :=
  remove_timeout_jobs ;;
  (* update.message.photo[-1] *)
  file_id ← or_raise IndexError (last (upd_photo u));
  if get_file_fails e then
    log_error LogDownloadError ;; reply_text u MsgDownloadFailed ;; mret END
  else
    w ← get_world;
    chat_id ← or_raise KeyError (filter_chat_id (user_data w));
    let filename :=
      (Text.str_of_int chat_id ++ "_" ++ stamp e ++ ".jpg")%string in
    let image_path := (IMAGES_DIR ++ "/" ++ filename)%string in
    if download_fails e then
      log_error LogDownloadError ;; reply_text u MsgDownloadFailed ;; mret END
    else
      modify (set_images ({[image_path]} ∪ image_files w)) ;;
      update_user_data (with_image (Some (Some image_path)) (Some (Some filename))) ;;
      reply_text u MsgImageReceived ;;
      mret AWAITING_BUTTONS.

Definition skip_image (e : env) (u : update) : M Z :=
  remove_timeout_jobs ;;
  update_user_data (with_image (Some None) (Some None)) ;;
  reply_text u MsgSkippedImage ;;
  mret AWAITING_BUTTONS.

(** The validation loop of [receive_buttons]: the report of the first
    bad definition, or the buttons of all of them. *)
Fixpoint parse_buttons (button_definitions : list string)
    (buttons_data : list button) : message + list button :=
  match button_definitions with
  | [] => inr buttons_data
  | button_def :: rest =>
      if negb (Text.contains_char "|" button_def) then
        inl MsgInvalidButtonFormat
      else
        let parts := Text.split1 "|" button_def in
        let text := Text.strip parts.1 in
        let url := Text.strip (default EmptyString parts.2) in
        if negb (Text.startswith "http://" url || Text.startswith "https://" url)
        then inl (MsgInvalidURL url)
        else parse_buttons rest
               (buttons_data ++ [{| btn_text := text; btn_url := url |}])
  end.

(** The segments [receive_buttons] validates: the trimmed text split on
    commas, each piece trimmed. *)
Definition button_definitions (text : string) : list string :=
  map Text.strip (Text.split "," (Text.strip text)).

(** What the loop makes of one segment. *)
Definition segment_text (seg : string) : string :=
  Text.strip (Text.split1 "|" seg).1.
Definition segment_url (seg : string) : string :=
  Text.strip (default EmptyString (Text.split1 "|" seg).2).
Definition segment_button (seg : string) : button :=
  {| btn_text := segment_text seg; btn_url := segment_url seg |}.

(** The two tests of the loop: a bar is present, and what follows the
    first bar is a web address. *)
Definition segment_ok (seg : string) : bool :=
  Text.contains_char "|" seg &&
  (Text.startswith "http://" (segment_url seg) ||
   Text.startswith "https://" (segment_url seg)).

(** The reply to a segment that fails them. *)
Definition segment_report (seg : string) : message :=
  if Text.contains_char "|" seg then MsgInvalidURL (segment_url seg)
  else MsgInvalidButtonFormat.

(** Number of occurrences of [c] in [s]. *)
Fixpoint count_char (c : ascii) (s : string) : nat :=
  match s with
  | EmptyString => O
  | String a r => (if Ascii.eqb a c then 1 else 0) + count_char c r
  end.

(** The preview keyboard: rows of two buttons. *)
Fixpoint keyboard_rows (buttons_data : list button) (row : list button)
    (keyboard : list (list button)) : list (list button) :=
  match buttons_data with
  | [] => match row with [] => keyboard | _ => keyboard ++ [row] end
  | b :: rest =>
      let row' := row ++ [b] in
      if (length row' =? 2)%nat then keyboard_rows rest [] (keyboard ++ [row'])
      else keyboard_rows rest row' keyboard
  end.

(** Nothing inside the [try] of the source raises in this model, so its
    [except Exception] branch is not taken. *)
Definition receive_buttons (e : env) (u : update) : M Z :=
  if String.eqb (upd_text u) "/skip" then
    update_user_data (with_buttons (Some [])) ;;
    reply_text u MsgSkippedButtons ;;
    mret AWAITING_FILTER_TRIGGER
  else
    match parse_buttons (button_definitions (upd_text u)) [] with
    | inl report => reply_text u report ;; mret AWAITING_BUTTONS
    | inr buttons_data =>
        update_user_data (with_buttons (Some buttons_data)) ;;
        reply_text u (MsgButtonsPreview (keyboard_rows buttons_data [] [])) ;;
        reply_text u MsgSendTrigger ;;
        mret AWAITING_FILTER_TRIGGER
    end.

(** [if not filters_cache: filters_cache = load_filters()] *)
Definition ensure_loaded (e : env) : M unit :=
  w ← get_world;
  match filters_cache w with
  | [] => loaded ← load_filters e; modify (set_cache loaded)
  | _ => mret tt
  end.

(** The dict literal bound to [filter_data]. *)
Definition make_filter_data (e : env) (u : update) (d : user_data_t)
  : list (string * pyval) :=
  [ ("image"%string, opt_str (default None (filter_image_filename d)));
    ("buttons"%string, PList (button_dict <$> default [] (filter_buttons d)));
    ("created_by"%string, PInt (upd_user_id u));
    ("created_at"%string, PStr (iso_now e)) ].

Definition receive_filter_trigger (e : env) (u : update) : M Z :=
  let trigger := Text.lower (Text.strip (upd_text u)) in
  w ← get_world;
  chat_id ← or_raise KeyError (filter_chat_id (user_data w));
  ensure_loaded e ;;
  w ← get_world;
  let chat_filters := default (PDict []) (Dict.get chat_id (filters_cache w)) in
  exists_already ← or_raise TypeError (py_contains trigger chat_filters);
  if (exists_already : bool) then
    reply_text u (MsgTriggerExists trigger) ;;
    mret AWAITING_FILTER_TRIGGER
  else
    let filter_data := make_filter_data e u (user_data w) in
    when (negb (Dict.mem chat_id (filters_cache w)))
      (modify (fun w => set_cache (Dict.set chat_id (PDict []) (filters_cache w)) w)) ;;
    w ← get_world;
    table ← or_raise KeyError (Dict.get chat_id (filters_cache w));
    table' ← or_raise TypeError (py_setitem trigger (PDict filter_data) table);
    modify (set_cache (Dict.set chat_id table' (filters_cache w))) ;;
    w ← get_world;
    saved ← save_filters e (filters_cache w);
    when (negb saved) (reply_text u MsgSaveIssue) ;;
    n ← or_raise TypeError
          (py_len (default PNone (Dict.get "buttons"%string filter_data)));
    reply_text u
      (MsgFilterCreated trigger
         (py_truthy (default PNone (Dict.get "image"%string filter_data))) n) ;;
    update_user_data (fun _ => user_data_empty) ;;
    mret END.

(** ** The conversation around the handlers *)

Inductive event :=
| Command (name : string) (u : update)   (* /filter, /skip, /stop *)
| Photo (u : update)
| Text (u : update)                      (* plain text, not a command *)
| JobRuns (j : job).                     (* the job queue runs a due job *)

(** The bot as one user sees it: the state of that user's conversation
    ([END] when there is none) and the shared state. *)
Record bot := { conversation : Z; state : world }.

(** Modelled from the spec: the [ConversationHandler] registration (entry
    point, handlers of each state, fallbacks) is not in the source at
    hand.  Section 4.2 gives the table: [/filter] enters the form; an
    image or [/skip] is accepted in AwaitingImage; button text or [/skip]
    in AwaitingButtons; text in AwaitingTrigger; [/stop] in every state
    of the form. *)
Definition handler_for (conv : Z) (ev : event) : option (env -> M Z) :=
  match ev with
  | Command name u =>
      if String.eqb name "filter" then
        if conv =? END then Some (fun e => filter_command e u) else None
      else if conv =? END then None
      else if String.eqb name "stop" then Some (fun e => stop_conversation e u)
      else if String.eqb name "skip" then
        if conv =? AWAITING_IMAGE then Some (fun e => skip_image e u)
        else if conv =? AWAITING_BUTTONS then Some (fun e => receive_buttons e u)
        else None
      else None
  | Photo u =>
      if conv =? AWAITING_IMAGE then Some (fun e => receive_image e u) else None
  | Text u =>
      if conv =? AWAITING_BUTTONS then Some (fun e => receive_buttons e u)
      else if conv =? AWAITING_FILTER_TRIGGER then
        Some (fun e => receive_filter_trigger e u)
      else None
  | JobRuns _ => None
  end.

Definition same_job (a b : job) : bool :=
  String.eqb (job_name a) (job_name b) && (job_delay a =? job_delay b)
  && (job_chat_id a =? job_chat_id b) && (job_user_id a =? job_user_id b).

(** One event.  A handler's return value is the next conversation state;
    a handler that raises leaves it as it was, and an update no handler
    accepts is dropped.  A due job leaves the queue and its callback runs;
    the callback's result is not a conversation state. *)
Definition step (e : env) (ev : event) (b : bot) : bot :=
  match ev with
  | JobRuns j =>
      if existsb (same_job j) (job_queue (state b)) then
        let w := set_jobs (List.filter (fun k => negb (same_job j k))
                                       (job_queue (state b))) (state b) in
        match timeout_callback j w with
        | Ret _ w' | Raise _ w' => {| conversation := conversation b; state := w' |}
        end
      else b
  | _ =>
      match handler_for (conversation b) ev with
      | Some h =>
          match h e (state b) with
          | Ret next w' => {| conversation := next; state := w' |}
          | Raise _ w' => {| conversation := conversation b; state := w' |}
          end
      | None => b
      end
  end.

Definition run (e : env) (evs : list event) (b : bot) : bot :=
  fold_left (fun b ev => step e ev b) evs b.

(** A freshly started process with no durable store yet. *)
Definition initial_world : world :=
  {| user_request_tracker := ∅; filters_cache := []; filters_file := None;
     image_files := ∅; user_data := user_data_empty; job_queue := [];
     sent := []; logged := [] |}.

Definition initial_bot : bot := {| conversation := END; state := initial_world |}.

(** ** Listing: [list_filters] *)

(** [data.get(key)]; only a dict has it ([None]: AttributeError). *)
Definition py_get (key : string) (data : pyval) : option pyval :=
  match data with
  | PDict kv => Some (default PNone (Dict.get key kv))
  | _ => None
  end.

(** The body of the listing loop for one item. *)
Definition list_line (i : nat) (trigger : string) (data : pyval)
  : exn + filter_line :=
  match py_get "image" data, py_get "buttons" data with
  | Some image, Some buttons =>
      if py_truthy buttons then
        match py_len buttons with
        | Some n =>
            inr {| line_number := i; line_trigger := trigger;
                   line_image := py_truthy image; line_buttons := Some n |}
        | None => inl TypeError
        end
      else
        inr {| line_number := i; line_trigger := trigger;
               line_image := py_truthy image; line_buttons := None |}
  | _, _ => inl AttributeError
  end.

(** [for i, (trigger, data) in enumerate(chat_filters.items(), i): ...] *)
Fixpoint list_lines (i : nat) (items : list (string * pyval))
    (response : list filter_line) : exn + list filter_line :=
  match items with
  | [] => inr response
  | (trigger, data) :: rest =>
      match list_line i trigger data with
      | inl e => inl e
      | inr line => list_lines (S i) rest (response ++ [line])
      end
  end.

Definition list_filters (e : env) (u : update) : M unit :=
  let chat_id := upd_chat_id u in
  ensure_loaded e ;;
  w ← get_world;
  let chat_filters := default (PDict []) (Dict.get chat_id (filters_cache w)) in
  if negb (py_truthy chat_filters) then reply_text u MsgNoFilters
  else
    items ← or_raise AttributeError (py_items chat_filters);
    match list_lines 1 items [] with
    | inl e => raise e
    | inr lines => reply_text u (MsgFilterList lines)
    end.

(** ** Sequences of calls *)

(** The limiter called at the given times by the given users, in order. *)
Fixpoint run_calls (calls : list (Q * Z)) (w : world) : world :=
  match calls with
  | [] => w
  | (t, uid) :: rest =>
      match check_rate_limit t uid w with
      | Ret _ w' | Raise _ w' => run_calls rest w'
      end
  end.

(** Every stored window is non-empty, holds at most [RATE_LIMIT]
    readings, and all of them are less than [TIME_WINDOW] old at [now]. *)
Definition tracker_tidy (now : Q) (tracker : gmap Z (list Q)) : Prop :=
  forall (uid : Z) (window : list Q), tracker !! uid = Some window ->
    window <> [] /\ (length window <= RATE_LIMIT)%nat /\
    Forall (fun t => in_window now t = true) window.

(** ** Sample inputs *)

Definition demo_env : env :=
  {| clock := 1000%Q; stamp := "20240101_120000"; iso_now := "2024-01-01T12:00:00";
     read_fails := false; write_result := WriteOk; admin := true;
     get_file_fails := false; download_fails := false; remove_fails := false |}.

(** The same with a failing disk. *)
Definition demo_env_disk_full : env :=
  {| clock := 1000%Q; stamp := "20240101_120000"; iso_now := "2024-01-01T12:00:00";
     read_fails := false; write_result := DumpFails; admin := true;
     get_file_fails := false; download_fails := false; remove_fails := false |}.

Definition demo_env_at (t : Q) : env :=
  {| clock := t; stamp := "20240101_120000"; iso_now := "2024-01-01T12:00:00";
     read_fails := false; write_result := WriteOk; admin := true;
     get_file_fails := false; download_fails := false; remove_fails := false |}.

(** A message of user 7 in the private chat 7. *)
Definition demo_update (text : string) : update :=
  {| upd_user_id := 7; upd_chat_id := 7; upd_chat_type := Private;
     upd_text := text; upd_photo := ["AgACAgIAAxkBAAIB"%string] |}.

Definition demo_filter : pyval :=
  PDict [("image"%string, PNone); ("buttons"%string, PList []);
         ("created_by"%string, PInt 7);
         ("created_at"%string, PStr "2023-12-31T09:30:00")].

(** Two chats, the first with two filters. *)
Definition demo_store : Dict.t Z pyval :=
  [(7, PDict [("hello"%string, demo_filter); ("rules"%string, demo_filter)]);
   (-1001234567890, PDict [("hello"%string, demo_filter)])].

(** User 7 has reached the last stage of the form in chat 7. *)
Definition demo_world_trigger : world :=
  {| user_request_tracker := ∅; filters_cache := demo_store;
     filters_file := Some (Document (PDict (Dict.rekey Text.str_of_int demo_store)));
     image_files := ∅;
     user_data := {| filter_chat_id := Some 7;
                     timeout_job := Some (timeout_name 7);
                     filter_image_path := Some None;
                     filter_image_filename := Some None;
                     filter_buttons := Some [] |};
     job_queue := []; sent := []; logged := [] |}.

(** User 7 has sent an image and is asked for the buttons. *)
Definition demo_world_buttons : world :=
  {| user_request_tracker := {[ 7 := [990%Q] ]}; filters_cache := demo_store;
     filters_file := Some (Document (PDict (Dict.rekey Text.str_of_int demo_store)));
     image_files := {[ "data/images/7_20240101_115950.jpg"%string ]};
     user_data := {| filter_chat_id := Some 7;
                     timeout_job := Some (timeout_name 7);
                     filter_image_path := Some (Some "data/images/7_20240101_115950.jpg"%string);
                     filter_image_filename := Some (Some "7_20240101_115950.jpg"%string);
                     filter_buttons := None |};
     job_queue := []; sent := [(7, MsgSendImage); (7, MsgImageReceived)];
     logged := [] |}.

(** The timeout job [filter_command] registers for user 7 in chat 7. *)
Definition demo_job : job :=
  {| job_name := "filter_timeout_7"; job_delay := 60; job_chat_id := 7;
     job_user_id := 7 |}.

(** A message of user 8, not an administrator, in the group -100200. *)
Definition demo_group_update (text : string) : update :=
  {| upd_user_id := 8; upd_chat_id := -100200; upd_chat_type := Supergroup;
     upd_text := text; upd_photo := [] |}.

Definition demo_env_member : env :=
  {| clock := 1000%Q; stamp := "20240101_120000"; iso_now := "2024-01-01T12:00:00";
     read_fails := false; write_result := WriteOk; admin := false;
     get_file_fails := false; download_fails := false; remove_fails := false |}.

(** The same as [demo_env] with Telegram refusing the file. *)
Definition demo_env_no_file : env :=
  {| clock := 1000%Q; stamp := "20240101_120000"; iso_now := "2024-01-01T12:00:00";
     read_fails := false; write_result := WriteOk; admin := true;
     get_file_fails := true; download_fails := false; remove_fails := false |}.

(** The same as [demo_env] with [os.remove] failing. *)
Definition demo_env_locked : env :=
  {| clock := 1000%Q; stamp := "20240101_120000"; iso_now := "2024-01-01T12:00:00";
     read_fails := false; write_result := WriteOk; admin := true;
     get_file_fails := false; download_fails := false; remove_fails := true |}.

(** User 7 has used the five calls of the current minute. *)
Definition demo_world_limited : world :=
  {| user_request_tracker := {[ 7 := [950; 960; 970; 980; 990]%Q ]};
     filters_cache := demo_store;
     filters_file := Some (Document (PDict (Dict.rekey Text.str_of_int demo_store)));
     image_files := ∅; user_data := user_data_empty; job_queue := [];
     sent := []; logged := [] |}.

(** User 7 has just sent [/filter] in chat 7; user 8 has a form open too. *)
Definition demo_world_image : world :=
  {| user_request_tracker := {[ 7 := [990%Q] ]}; filters_cache := demo_store;
     filters_file := Some (Document (PDict (Dict.rekey Text.str_of_int demo_store)));
     image_files := ∅;
     user_data := with_timeout_job (Some (timeout_name 7))
                    (with_chat_id (Some 7) user_data_empty);
     job_queue := [ {| job_name := timeout_name 8; job_delay := 60;
                       job_chat_id := -100200; job_user_id := 8 |};
                    demo_job ];
     sent := [(7, MsgSendImage)]; logged := [] |}.

(** [demo_world_buttons] after a [/stop]. *)
Definition demo_world_stopped : world :=
  match stop_conversation demo_env (demo_update "/stop") demo_world_buttons with
  | Ret _ w | Raise _ w => w
  end.

(** [demo_world_image] after a [/skip]. *)
Definition demo_world_skipped : world :=
  match skip_image demo_env (demo_update "/skip") demo_world_image with
  | Ret _ w | Raise _ w => w
  end.

(** * Properties *)

(** ** Sanity checks of the text primitives *)

Example strip_lower_hello :
  Text.lower (Text.strip "  Hello ") = "hello"%string.
Proof. reflexivity. Qed.

Example split_commas :
  Text.split "," "a,,b" = ["a"; ""; "b"]%string /\
  Text.split "," "" = [""%string] /\
  Text.split1 "|" "a|b|c" = ("a"%string, Some "b|c"%string).
Proof. repeat split. Qed.

Example str_of_int_samples :
  Text.str_of_int (-1001234567890) = "-1001234567890"%string /\
  Text.str_of_int 0 = "0"%string /\ Text.str_of_int 10 = "10"%string /\
  Text.int_of_str " 1_0 " = Some 10 /\ Text.int_of_str "+5" = Some 5 /\
  Text.int_of_str "-0" = Some 0 /\ Text.int_of_str "abc" = None /\
  Text.int_of_str "1__0" = None /\ Text.int_of_str "" = None.
Proof. repeat split. Qed.

(** ** Decimal rendering and parsing of chat ids *)

Module TextFacts.
Import Text.

Lemma small_cases (d : Z) :
  0 <= d < 10 ->
  d = 0 \/ d = 1 \/ d = 2 \/ d = 3 \/ d = 4 \/ d = 5 \/ d = 6 \/ d = 7 \/
  d = 8 \/ d = 9.
Proof. lia. Qed.

Ltac each_digit d H :=
  destruct (small_cases d H) as [->|[->|[->|[->|[->|[->|[->|[->|[->| ->]]]]]]]]].

Lemma digit_char_is_digit d : 0 <= d < 10 -> is_digit (digit_char d) = true.
Proof. intros H. each_digit d H; reflexivity. Qed.

Lemma digit_char_val d : 0 <= d < 10 -> digit_val (digit_char d) = d.
Proof. intros H. each_digit d H; reflexivity. Qed.

Lemma digit_char_plain d : 0 <= d < 10 -> plain (digit_char d) = true.
Proof. intros H. each_digit d H; reflexivity. Qed.

Lemma mod10_range n : 0 <= n mod 10 < 10.
Proof. apply Z.mod_pos_bound. lia. Qed.

Lemma lstrip_plain s : all_chars plain s = true -> lstrip s = s.
Proof.
  destruct s as [|c r]; simpl; [reflexivity|].
  unfold plain. destruct (is_space c); simpl; [discriminate | reflexivity].
Qed.

Lemma rstrip_plain s : all_chars plain s = true -> rstrip s = s.
Proof.
  induction s as [|c r IH]; simpl; [reflexivity|].
  intros [Hc Hr]%andb_true_iff. rewrite (IH Hr).
  unfold plain in Hc. destruct r; [|reflexivity].
  destruct (is_space c); [discriminate | reflexivity].
Qed.

Lemma strip_plain s : all_chars plain s = true -> strip s = s.
Proof.
  intros H. unfold strip. rewrite (lstrip_plain s H). apply rstrip_plain, H.
Qed.

Lemma digits_plain fuel : forall n acc,
  all_chars plain acc = true -> all_chars plain (digits fuel n acc) = true.
Proof.
  induction fuel as [|f IH]; intros n acc Hacc; simpl.
  - rewrite digit_char_plain by apply mod10_range. exact Hacc.
  - destruct (n <? 10).
    + simpl. rewrite digit_char_plain by apply mod10_range. exact Hacc.
    + apply IH. simpl. rewrite digit_char_plain by apply mod10_range. exact Hacc.
Qed.

(** The rendering starts with a digit. *)
Lemma digits_head fuel : forall n acc,
  exists c r, digits fuel n acc = String c r /\ is_digit c = true.
Proof.
  induction fuel as [|f IH]; intros n acc; simpl.
  - eexists _, _. split; [reflexivity|]. apply digit_char_is_digit, mod10_range.
  - destruct (n <? 10).
    + eexists _, _. split; [reflexivity|]. apply digit_char_is_digit, mod10_range.
    + apply IH.
Qed.

(** Reading back the digits of [n] in front of [rest] is reading [rest]
    with [n] accumulated. *)
Lemma parse_digits_digits fuel : forall n rest b,
  0 <= n < 2 ^ (Z.of_nat fuel + 1) ->
  parse_digits (digits fuel n rest) 0 b = parse_digits rest n true.
Proof.
  induction fuel as [|f IH]; intros n rest b Hn.
  - simpl in *. rewrite digit_char_is_digit, digit_char_val by apply mod10_range.
    f_equal. rewrite Z.mod_small; lia.
  - simpl digits. destruct (Z.ltb_spec n 10) as [Hlt|Hge].
    + simpl. rewrite digit_char_is_digit, digit_char_val by apply mod10_range.
      f_equal. rewrite Z.mod_small; lia.
    + rewrite IH.
      * simpl. rewrite digit_char_is_digit, digit_char_val by apply mod10_range.
        f_equal. pose proof (Z.div_mod n 10). lia.
      * split; [apply Z.div_pos; lia|].
        replace (Z.of_nat (S f) + 1) with (Z.succ (Z.of_nat f + 1)) in Hn by lia.
        rewrite Z.pow_succ_r in Hn by lia.
        apply Z.div_lt_upper_bound; lia.
Qed.

Lemma log2_fuel n : 0 <= n -> 0 <= n < 2 ^ (Z.of_nat (Z.to_nat (Z.log2 n)) + 1).
Proof.
  intros Hn. rewrite Z2Nat.id by apply Z.log2_nonneg.
  destruct (Z.eq_dec n 0) as [->|Hne]; [simpl; lia|].
  split; [lia|]. replace (Z.log2 n + 1) with (Z.succ (Z.log2 n)) by lia.
  apply Z.log2_spec. lia.
Qed.

Lemma int_of_str_digit_head c r :
  is_digit c = true ->
  match String c r with
  | String "+" r' => parse_digits r' 0 false
  | String "-" r' => Z.opp <$> parse_digits r' 0 false
  | r' => parse_digits r' 0 false
  end = parse_digits (String c r) 0 false.
Proof.
  destruct c as [[] [] [] [] [] [] [] []]; try discriminate; reflexivity.
Qed.

(** [int(str(z)) == z] *)
Lemma int_of_str_of_int z : int_of_str (str_of_int z) = Some z.
Proof.
  unfold int_of_str, str_of_int. destruct (Z.ltb_spec z 0) as [Hneg|Hpos].
  - rewrite strip_plain by (simpl; apply digits_plain; reflexivity).
    rewrite parse_digits_digits by (apply log2_fuel; lia).
    simpl. f_equal. lia.
  - rewrite strip_plain by (apply digits_plain; reflexivity).
    destruct (digits_head (Z.to_nat (Z.log2 z)) z EmptyString) as (c & r & Heq & Hc).
    rewrite Heq, (int_of_str_digit_head c r Hc), <- Heq.
    rewrite parse_digits_digits by (apply log2_fuel; lia).
    reflexivity.
Qed.

Lemma str_of_int_inj : Inj (=) (=) str_of_int.
Proof.
  intros a b Hab. pose proof (int_of_str_of_int a) as Ha.
  rewrite Hab, int_of_str_of_int in Ha. congruence.
Qed.

End TextFacts.

(** ** Insertion-ordered dicts *)

Module DictFacts.
Section Facts.
Context {K V : Type} `{EqDecision K}.
Implicit Types (d : Dict.t K V) (k : K) (v : V).

Lemma get_None_keys d k : Dict.get k d = None <-> k ∉ Dict.keys d.
Proof.
  induction d as [|[k' v'] r IH]; simpl.
  - split; [intros _; apply not_elem_of_nil | reflexivity].
  - destruct (decide (k' = k)) as [->|Hne].
    + split; [discriminate|]. intros Hn. exfalso. apply Hn. left.
    + rewrite IH, not_elem_of_cons. split; [intros Hr; split; congruence | tauto].
Qed.

Lemma get_Some_keys d k v : Dict.get k d = Some v -> k ∈ Dict.keys d.
Proof.
  intros Hg. destruct (decide (k ∈ Dict.keys d)) as [|Hn]; [assumption|].
  apply get_None_keys in Hn. congruence.
Qed.

Lemma mem_true d k : Dict.mem k d = true <-> k ∈ Dict.keys d.
Proof.
  unfold Dict.mem. rewrite bool_decide_eq_true.
  destruct (Dict.get k d) eqn:Hg.
  - split; [intros _; eapply get_Some_keys, Hg | eauto].
  - apply get_None_keys in Hg. split; [intros [? [=]] | contradiction].
Qed.

Lemma mem_false d k : Dict.mem k d = false <-> Dict.get k d = None.
Proof.
  unfold Dict.mem. rewrite bool_decide_eq_false.
  destruct (Dict.get k d); split; try done.
  intros Hn. exfalso. apply Hn. eauto.
Qed.

Lemma get_set_eq d k v : Dict.get k (Dict.set k v d) = Some v.
Proof.
  induction d as [|[k' v'] r IH]; simpl.
  - by rewrite decide_True.
  - destruct (decide (k' = k)) as [->|Hne]; simpl.
    + by rewrite decide_True.
    + by rewrite decide_False.
Qed.

Lemma get_set_ne d k k' v : k ≠ k' -> Dict.get k' (Dict.set k v d) = Dict.get k' d.
Proof.
  intros Hne. induction d as [|[k0 v0] r IH]; simpl.
  - by rewrite decide_False.
  - destruct (decide (k0 = k)) as [->|Hne0]; simpl.
    + by destruct (decide (k = k')).
    + destruct (decide (k0 = k')); [reflexivity | exact IH].
Qed.

(** A new key goes to the end. *)
Lemma set_fresh d k v : k ∉ Dict.keys d -> Dict.set k v d = d ++ [(k, v)].
Proof.
  induction d as [|[k' v'] r IH]; simpl; [reflexivity|].
  intros [Hne Hr]%not_elem_of_cons. rewrite decide_False by congruence.
  by rewrite IH.
Qed.

(** Setting a key never changes the keys before it or their order. *)
Lemma keys_set d k v :
  Dict.keys (Dict.set k v d) =
  if Dict.mem k d then Dict.keys d else Dict.keys d ++ [k].
Proof.
  destruct (Dict.mem k d) eqn:Hm.
  - apply mem_true in Hm. induction d as [|[k' v'] r IH]; simpl.
    + by apply elem_of_nil in Hm.
    + destruct (decide (k' = k)) as [->|Hne]; simpl; [reflexivity|].
      f_equal. apply IH. apply elem_of_cons in Hm as [->|]; [done | assumption].
  - apply mem_false, get_None_keys in Hm. rewrite set_fresh by assumption.
    unfold Dict.keys. by rewrite fmap_app.
Qed.

End Facts.

Section Remap.
Context {K K' V : Type} `{EqDecision K, EqDecision K'}.

Lemma keys_rekey (f : K -> K') (items : list (K * V)) : Dict.keys (Dict.rekey f items) = f <$> Dict.keys items.
Proof.
  unfold Dict.keys, Dict.rekey. rewrite <- !list_fmap_compose. reflexivity.
Qed.

(** With keys that stay distinct, a comprehension is a map over the
    items: same values, same order. *)
Lemma remap_distinct (f : K -> K') (items : list (K * V)) : forall acc : Dict.t K' V,
  NoDup (Dict.keys acc ++ (f <$> Dict.keys items)) ->
  Dict.remap f items acc = acc ++ Dict.rekey f items.
Proof.
  induction items as [|[k v] r IH]; intros acc Hnd; simpl.
  - by rewrite app_nil_r.
  - simpl in Hnd. assert (Hfresh : f k ∉ Dict.keys acc).
    { apply NoDup_app in Hnd as (_ & Hdis & _). intros Hin.
      apply (Hdis _ Hin). left. }
    rewrite (set_fresh acc (f k) v Hfresh). rewrite IH.
    + by rewrite <- app_assoc.
    + unfold Dict.keys in *. rewrite fmap_app. simpl.
      rewrite <- app_assoc. exact Hnd.
Qed.

Lemma remap_partial_distinct (g : K -> option K') (f : K' -> K)
    (items : list (K' * V)) :
  (forall k, g (f k) = Some k) ->
  forall acc : Dict.t K' V,
  NoDup (Dict.keys acc ++ Dict.keys items) ->
  Dict.remap_partial g (Dict.rekey f items) acc = Some (acc ++ items).
Proof.
  intros Hgf. induction items as [|[k v] r IH]; intros acc Hnd; simpl.
  - by rewrite app_nil_r.
  - rewrite Hgf. simpl in Hnd. assert (Hfresh : k ∉ Dict.keys acc).
    { apply NoDup_app in Hnd as (_ & Hdis & _). intros Hin.
      apply (Hdis _ Hin). left. }
    rewrite (set_fresh acc k v Hfresh). rewrite IH.
    + by rewrite <- app_assoc.
    + unfold Dict.keys in *. rewrite fmap_app. simpl.
      rewrite <- app_assoc. exact Hnd.
Qed.

End Remap.
End DictFacts.

(** ** Stepping through handler code *)

Ltac step_m :=
  unfold mbind, M_bind, bind, mret, M_ret, ret, raise, or_raise, when,
         modify, get_world, update_user_data, reply_text, send_message,
         log_error in *.

(** ** The durable store *)

Lemma save_filters_ok (e : env) (store : Dict.t Z pyval) (w : world) :
  write_result e = WriteOk ->
  save_filters e store w =
  Ret true (set_file (Some (Document (PDict (Dict.remap Text.str_of_int store [])))) w).
Proof. intros Hw. unfold save_filters. rewrite Hw. reflexivity. Qed.

Lemma save_filters_failed (e : env) (store : Dict.t Z pyval) (w : world) :
  write_result e <> WriteOk ->
  exists f, save_filters e store w =
            Ret false (set_logged (logged w ++ [LogSaveError]) (set_file f w)).
Proof.
  intros Hw. unfold save_filters. destruct (write_result e); [done | | |].
  - exists (filters_file w). destruct w; reflexivity.
  - exists (Some Malformed). reflexivity.
  - exists (Some Undecodable). reflexivity.
Qed.

Lemma remap_str_of_int (store : Dict.t Z pyval) :
  Dict.wf store ->
  Dict.remap Text.str_of_int store [] = Dict.rekey Text.str_of_int store.
Proof.
  intros Hwf. rewrite DictFacts.remap_distinct; [reflexivity|]. simpl.
  apply (@NoDup_fmap_2 _ _ _ TextFacts.str_of_int_inj). exact Hwf.
Qed.

(** On a document that decodes but is not an object keyed by integer
    literals the conversion of the keys raises, and nothing catches it;
    nor is the error of reading bytes that are not UTF-8 caught. *)
Example load_filters_foreign_document (e : env) (w : world) :
  read_fails e = false ->
  (filters_file w = Some (Document (PDict [("abc"%string, PDict [])])) ->
   load_filters e w = Raise ValueError w) /\
  (filters_file w = Some (Document (PList [])) ->
   load_filters e w = Raise AttributeError w) /\
  (filters_file w = Some Undecodable ->
   load_filters e w = Raise UnicodeDecodeError w).
Proof.
  intros Hr. repeat split; intros Hf; unfold load_filters; step_m;
    rewrite Hf, Hr; reflexivity.
Qed.

(** C7: for every store (a dict keyed by integer chat ids), saving it and
    then loading it gives back the same store: the file holds the chat ids
    as decimal text, loading parses them back to the integers, and every
    chat's table comes back unchanged, the entries in their original
    order. *)
Theorem save_then_load_roundtrip
    (e_save e_load : env) (store : Dict.t Z pyval) (w : world) :
  Dict.wf store ->
  write_result e_save = WriteOk ->
  read_fails e_load = false ->
  exists w',
    save_filters e_save store w = Ret true w' /\
    filters_file w' =
      Some (Document (PDict (Dict.rekey Text.str_of_int store))) /\
    load_filters e_load w' = Ret store w'.
Proof.
  intros Hwf Hw Hr. eexists. split; [apply save_filters_ok, Hw|].
  rewrite remap_str_of_int by exact Hwf. split; [reflexivity|].
  unfold load_filters. step_m. simpl. rewrite Hr. simpl.
  rewrite (DictFacts.remap_partial_distinct _ Text.str_of_int store
             TextFacts.int_of_str_of_int []) by exact Hwf.
  reflexivity.
Qed.

Lemma save_then_load_roundtrip_demo :
  exists w',
    save_filters demo_env demo_store initial_world = Ret true w' /\
    filters_file w' =
      Some (Document (PDict (Dict.rekey Text.str_of_int demo_store))) /\
    load_filters demo_env w' = Ret demo_store w'.
Proof.
  apply (save_then_load_roundtrip demo_env demo_env demo_store initial_world).
  - unfold Dict.wf. apply (bool_decide_unpack _). vm_compute. exact I.
  - reflexivity.
  - reflexivity.
Defined.

(** C8 (the code does otherwise): [load_filters] catches
    [json.JSONDecodeError] and [IOError] only.  On a file that is valid
    JSON with a key that is not an integer, [int] raises ValueError
    inside the [try] and nothing catches it; the same happens with
    AttributeError on a document that is not an object and with
    UnicodeDecodeError on bytes that are not UTF-8.  Loading then raises
    instead of giving the empty store, and the handler that asked for
    the store raises with it. *)
Theorem load_filters_raises_on_foreign_storage :
  let foreign_key :=
    set_file (Some (Document (PDict [("abc"%string, PDict [])]))) initial_world in
  let not_an_object := set_file (Some (Document (PList []))) initial_world in
  let not_utf8 := set_file (Some Undecodable) initial_world in
  let in_form := set_user_data (with_chat_id (Some 7) user_data_empty) foreign_key in
  load_filters demo_env foreign_key = Raise ValueError foreign_key /\
  load_filters demo_env not_an_object = Raise AttributeError not_an_object /\
  load_filters demo_env not_utf8 = Raise UnicodeDecodeError not_utf8 /\
  receive_filter_trigger demo_env (demo_update "hello") in_form =
    Raise ValueError in_form.
Proof. vm_compute. repeat split. Qed.

(** X24: when the storage file is absent, cannot be read, or does not
    decode as JSON, [load_filters] returns the empty store instead of
    raising; in the two failure cases the error is logged. *)
Theorem load_filters_bad_storage_is_empty (e : env) (w : world) :
  filters_file w = None \/ read_fails e = true \/
  filters_file w = Some Malformed ->
  load_filters e w =
  Ret [] (match filters_file w with
          | None => w
          | Some _ => set_logged (logged w ++ [LogLoadError]) w
          end).
Proof.
  intros Hbad. unfold load_filters. step_m.
  destruct (filters_file w) as [content|]; [|reflexivity].
  destruct (read_fails e); [reflexivity|].
  destruct Hbad as [Habs | [Hrd | Hmal]]; [discriminate | discriminate |].
  injection Hmal as ->. reflexivity.
Qed.

Lemma load_filters_bad_storage_demo :
  load_filters demo_env (set_file (Some Malformed) initial_world) =
  Ret [] (set_logged [LogLoadError] (set_file (Some Malformed) initial_world)).
Proof.
  apply (load_filters_bad_storage_is_empty demo_env
           (set_file (Some Malformed) initial_world)).
  right. right. reflexivity.
Defined.

(** ** The trigger stage: [receive_filter_trigger] *)

Lemma set_set_eq {K V : Type} `{EqDecision K} (d : Dict.t K V) k v1 v2 :
  Dict.set k v2 (Dict.set k v1 d) = Dict.set k v2 d.
Proof.
  induction d as [|[k' v'] r IH]; simpl.
  - by rewrite decide_True.
  - destruct (decide (k' = k)) as [->|Hne]; simpl.
    + by rewrite decide_True.
    + rewrite decide_False by done. by rewrite IH.
Qed.

Lemma ensure_loaded_nonempty (e : env) (w : world) :
  filters_cache w <> [] -> ensure_loaded e w = Ret tt w.
Proof.
  intros Hne. unfold ensure_loaded. step_m.
  destruct (filters_cache w); [done | reflexivity].
Qed.

(** Loading the cache touches neither the file, nor the session, nor the
    replies. *)
Lemma ensure_loaded_frame (e : env) (w w1 : world) :
  ensure_loaded e w = Ret tt w1 ->
  filters_file w1 = filters_file w /\ user_data w1 = user_data w /\
  sent w1 = sent w /\ job_queue w1 = job_queue w /\
  image_files w1 = image_files w /\
  user_request_tracker w1 = user_request_tracker w.
Proof.
  unfold ensure_loaded, load_filters. step_m.
  destruct (filters_cache w); [|intros [= <-]; done].
  destruct (filters_file w) as [content|] eqn:Hf; simpl;
    [|intros [= <-]; simpl; by rewrite Hf].
  destruct (read_fails e); [intros [= <-]; simpl; by rewrite Hf|].
  destruct content as [|data|]; simpl;
    [intros [= <-]; simpl; by rewrite Hf | | discriminate].
  destruct (py_items data) as [items|]; simpl; [|discriminate].
  destruct (Dict.remap_partial Text.int_of_str items []); simpl;
    [|discriminate].
  intros [= <-]. simpl. by rewrite Hf.
Qed.

(** The handler on a trigger the chat does not have yet: the world it
    leaves, whatever the disk does. *)
Lemma receive_filter_trigger_creates
    (e : env) (u : update) (w w1 : world) (chat_id : Z)
    (table : list (string * pyval)) :
  let trigger := Text.lower (Text.strip (upd_text u)) in
  let filter_data := PDict (make_filter_data e u (user_data w)) in
  filter_chat_id (user_data w) = Some chat_id ->
  ensure_loaded e w = Ret tt w1 ->
  default (PDict []) (Dict.get chat_id (filters_cache w1)) = PDict table ->
  Dict.mem trigger table = false ->
  exists w',
    receive_filter_trigger e u w = Ret END w' /\
    filters_cache w' =
      Dict.set chat_id (PDict (Dict.set trigger filter_data table))
               (filters_cache w1) /\
    sent w' =
      sent w1 ++
      match write_result e with
      | WriteOk => []
      | _ => [(upd_chat_id u, MsgSaveIssue)]
      end ++
      [(upd_chat_id u,
        MsgFilterCreated trigger
          (py_truthy (opt_str (default None (filter_image_filename (user_data w)))))
          (length (default [] (filter_buttons (user_data w)))))] /\
    user_data w' = user_data_empty /\
    logged w' =
      logged w1 ++
      match write_result e with WriteOk => [] | _ => [LogSaveError] end.
Proof.
  intros trigger filter_data Hchat Hload Htable Hmem.
  destruct (ensure_loaded_frame e w w1 Hload) as (_ & Hud & _).
  unfold receive_filter_trigger. step_m. rewrite Hchat. simpl.
  rewrite Hload. simpl. rewrite Htable. simpl.
  fold trigger. rewrite Hmem. rewrite Hud. fold filter_data.
  rewrite length_fmap.
  destruct (Dict.get chat_id (filters_cache w1)) as [v|] eqn:Hg; simpl in Htable.
  - subst v.
    assert (Hm : Dict.mem chat_id (filters_cache w1) = true)
      by (apply DictFacts.mem_true; eapply DictFacts.get_Some_keys, Hg).
    rewrite Hm. simpl. rewrite Hg. simpl. unfold save_filters. step_m.
    destruct (write_result e); simpl; eexists; (split; [reflexivity|]); simpl;
      rewrite ?app_nil_r, <- ?app_assoc; repeat split; reflexivity.
  - injection Htable as <-.
    assert (Hm : Dict.mem chat_id (filters_cache w1) = false)
      by (apply DictFacts.mem_false, Hg).
    rewrite Hm. simpl. rewrite DictFacts.get_set_eq. simpl.
    rewrite set_set_eq. unfold save_filters. step_m.
    destruct (write_result e); simpl; eexists; (split; [reflexivity|]); simpl;
      rewrite ?app_nil_r, <- ?app_assoc; repeat split; reflexivity.
Qed.

Lemma lstrip_blank s : Text.all_chars Text.is_space s = true -> Text.lstrip s = EmptyString.
Proof.
  induction s as [|c r IH]; simpl; [reflexivity|].
  intros [Hc Hr]%andb_true_iff. rewrite Hc. exact (IH Hr).
Qed.

(** A text of white space only normalizes to the empty trigger. *)
Lemma normalize_blank s :
  Text.all_chars Text.is_space s = true ->
  Text.lower (Text.strip s) = EmptyString.
Proof. intros H. unfold Text.strip. rewrite (lstrip_blank s H). reflexivity. Qed.

Lemma get_set_table (cache : Dict.t Z pyval) chat_id trigger v table :
  exists table',
    Dict.get chat_id (Dict.set chat_id (PDict (Dict.set trigger v table)) cache)
      = Some (PDict table') /\
    Dict.get trigger table' = Some v.
Proof.
  exists (Dict.set trigger v table). split; apply DictFacts.get_set_eq.
Qed.

(** C2: in AwaitingTrigger the text is trimmed and lower-cased; when the
    chat's table already has that trigger the handler only replies that
    it exists and stays in AwaitingTrigger: cache, file and session are
    those it found (the cache being first loaded from the file if it was
    empty), so no filter is created or overwritten, whatever the casing
    or surrounding blanks of the text. *)
Theorem duplicate_trigger_rejected
    (e : env) (u : update) (w w1 : world) (chat_id : Z)
    (table : list (string * pyval)) (existing : string) :
  filter_chat_id (user_data w) = Some chat_id ->
  ensure_loaded e w = Ret tt w1 ->
  Dict.get chat_id (filters_cache w1) = Some (PDict table) ->
  Dict.mem existing table = true ->
  Text.lower (Text.strip (upd_text u)) = existing ->
  receive_filter_trigger e u w =
    Ret AWAITING_FILTER_TRIGGER
        (set_sent (sent w1 ++ [(upd_chat_id u, MsgTriggerExists existing)]) w1) /\
  filters_file w1 = filters_file w /\
  user_data w1 = user_data w /\
  (filters_cache w <> [] -> w1 = w).
Proof.
  intros Hchat Hload Hg Hmem Hnorm.
  destruct (ensure_loaded_frame e w w1 Hload) as (Hfile & Hud & _).
  repeat split; try assumption.
  - unfold receive_filter_trigger. step_m. rewrite Hchat. simpl.
    rewrite Hload. simpl. rewrite Hg. simpl. rewrite Hnorm, Hmem. reflexivity.
  - intros Hne. rewrite (ensure_loaded_nonempty e w Hne) in Hload. congruence.
Qed.

Lemma duplicate_trigger_rejected_demo :
  receive_filter_trigger demo_env (demo_update "  Hello ") demo_world_trigger =
    Ret AWAITING_FILTER_TRIGGER
        (set_sent [(7, MsgTriggerExists "hello")] demo_world_trigger) /\
  filters_file demo_world_trigger = filters_file demo_world_trigger /\
  user_data demo_world_trigger = user_data demo_world_trigger /\
  (filters_cache demo_world_trigger <> [] -> demo_world_trigger = demo_world_trigger).
Proof.
  apply (duplicate_trigger_rejected demo_env (demo_update "  Hello ")
           demo_world_trigger demo_world_trigger 7
           [("hello"%string, demo_filter); ("rules"%string, demo_filter)]
           "hello"); reflexivity.
Defined.

(** C9: when the write of a newly created filter fails, the handler still
    finishes: the cache holds the new filter under its trigger, the user
    gets the warning that saving failed and then the success report, the
    failure is logged, the session is cleared and the conversation ends. *)
Theorem save_failure_keeps_filter
    (e : env) (u : update) (w w1 : world) (chat_id : Z)
    (table : list (string * pyval)) :
  let trigger := Text.lower (Text.strip (upd_text u)) in
  let filter_data := PDict (make_filter_data e u (user_data w)) in
  write_result e <> WriteOk ->
  filter_chat_id (user_data w) = Some chat_id ->
  ensure_loaded e w = Ret tt w1 ->
  default (PDict []) (Dict.get chat_id (filters_cache w1)) = PDict table ->
  Dict.mem trigger table = false ->
  exists w',
    receive_filter_trigger e u w = Ret END w' /\
    (exists table',
        Dict.get chat_id (filters_cache w') = Some (PDict table') /\
        Dict.get trigger table' = Some filter_data) /\
    sent w' =
      sent w1 ++
      [(upd_chat_id u, MsgSaveIssue);
       (upd_chat_id u,
        MsgFilterCreated trigger
          (py_truthy (opt_str (default None (filter_image_filename (user_data w)))))
          (length (default [] (filter_buttons (user_data w)))))] /\
    user_data w' = user_data_empty /\
    logged w' = logged w1 ++ [LogSaveError].
Proof.
  intros trigger filter_data Hfail Hchat Hload Htable Hmem.
  destruct (receive_filter_trigger_creates e u w w1 chat_id table
              Hchat Hload Htable Hmem)
    as (w' & Hrun & Hcache & Hsent & Hud & Hlog).
  exists w'. split; [exact Hrun|]. split.
  - rewrite Hcache. apply get_set_table.
  - destruct (write_result e); [done | | |]; auto.
Qed.

Lemma save_failure_keeps_filter_demo :
  exists w',
    receive_filter_trigger demo_env_disk_full (demo_update "Welcome")
      demo_world_trigger = Ret END w' /\
    (exists table',
        Dict.get 7 (filters_cache w') = Some (PDict table') /\
        Dict.get "welcome"%string table' =
          Some (PDict (make_filter_data demo_env_disk_full (demo_update "Welcome")
                         (user_data demo_world_trigger)))) /\
    sent w' = [(7, MsgSaveIssue); (7, MsgFilterCreated "welcome" false 0)] /\
    user_data w' = user_data_empty /\
    logged w' = [LogSaveError].
Proof.
  apply (save_failure_keeps_filter demo_env_disk_full (demo_update "Welcome")
           demo_world_trigger demo_world_trigger 7
           [("hello"%string, demo_filter); ("rules"%string, demo_filter)]);
    [discriminate | reflexivity | reflexivity | reflexivity | reflexivity].
Defined.

(** C10: in AwaitingTrigger a message of white space only normalizes to
    the empty string; when the chat has no filter under the empty
    trigger, nothing rejects it: the handler stores a filter keyed by the
    empty string and ends the conversation. *)
Theorem blank_trigger_creates_filter
    (e : env) (u : update) (w w1 : world) (chat_id : Z)
    (table : list (string * pyval)) :
  Text.all_chars Text.is_space (upd_text u) = true ->
  filter_chat_id (user_data w) = Some chat_id ->
  ensure_loaded e w = Ret tt w1 ->
  default (PDict []) (Dict.get chat_id (filters_cache w1)) = PDict table ->
  Dict.mem EmptyString table = false ->
  Text.lower (Text.strip (upd_text u)) = EmptyString /\
  exists w',
    receive_filter_trigger e u w = Ret END w' /\
    exists table',
      Dict.get chat_id (filters_cache w') = Some (PDict table') /\
      Dict.get EmptyString table' =
        Some (PDict (make_filter_data e u (user_data w))).
Proof.
  intros Hblank Hchat Hload Htable Hmem.
  pose proof (normalize_blank _ Hblank) as Hnorm. split; [exact Hnorm|].
  rewrite <- Hnorm in Hmem.
  destruct (receive_filter_trigger_creates e u w w1 chat_id table
              Hchat Hload Htable Hmem)
    as (w' & Hrun & Hcache & _).
  exists w'. split; [exact Hrun|]. rewrite Hcache, Hnorm. apply get_set_table.
Qed.

Lemma blank_trigger_creates_filter_demo :
  Text.lower (Text.strip (upd_text (demo_update "   "))) = EmptyString /\
  exists w',
    receive_filter_trigger demo_env (demo_update "   ") demo_world_trigger =
      Ret END w' /\
    exists table',
      Dict.get 7 (filters_cache w') = Some (PDict table') /\
      Dict.get EmptyString table' =
        Some (PDict (make_filter_data demo_env (demo_update "   ")
                       (user_data demo_world_trigger))).
Proof.
  apply (blank_trigger_creates_filter demo_env (demo_update "   ")
           demo_world_trigger demo_world_trigger 7
           [("hello"%string, demo_filter); ("rules"%string, demo_filter)]);
    reflexivity.
Defined.

(** ** The rate limiter *)

Lemma Qltb_spec (x y : Q) : Qltb x y = true <-> (x < y)%Q.
Proof.
  unfold Qltb. rewrite negb_true_iff, <- not_true_iff_false, Qle_bool_iff.
  split; [apply Qnot_le_lt | apply Qlt_not_le].
Qed.

Lemma in_window_true (now t : Q) : (now - t < 60)%Q -> in_window now t = true.
Proof. intros H. apply Qltb_spec. exact H. Qed.

Lemma in_window_false (now t : Q) : (60 <= now - t)%Q -> in_window now t = false.
Proof.
  intros H. apply not_true_iff_false. intros Ht%Qltb_spec.
  unfold TIME_WINDOW in Ht. lra.
Qed.

Lemma prune_user_lookup (now : Q) (tracker : gmap Z (list Q)) (k uid : Z) :
  prune_user now tracker k !! uid =
  if decide (uid = k) then prune_entry now (tracker !! k) else tracker !! uid.
Proof.
  unfold prune_user, prune_entry. destruct (decide (uid = k)) as [->|Hne].
  - destruct (tracker !! k) as [window|]; simpl.
    + destruct (List.filter (in_window now) window).
      * by rewrite lookup_delete_eq.
      * by rewrite lookup_insert_eq.
    + by rewrite lookup_delete_eq.
  - destruct (List.filter _ _).
    + rewrite lookup_delete_ne by done. by rewrite lookup_insert_ne.
    + by rewrite lookup_insert_ne.
Qed.

Lemma prune_keys_lookup (now : Q) (uid : Z) (ks : list Z) :
  NoDup ks -> forall tracker : gmap Z (list Q),
  fold_left (prune_user now) ks tracker !! uid =
  if decide (uid ∈ ks) then prune_entry now (tracker !! uid) else tracker !! uid.
Proof.
  induction 1 as [|k ks Hk Hnd IH]; intros tracker.
  - destruct (decide (uid ∈ [])) as [Hin|]; [by apply elem_of_nil in Hin | reflexivity].
  - cbn [fold_left]. rewrite IH, !prune_user_lookup. destruct (decide (uid = k)) as [->|Hne].
    + destruct (decide (k ∈ ks)); [contradiction|].
      destruct (decide (k ∈ k :: ks)) as [|Hn]; [reflexivity|].
      exfalso. apply Hn. left.
    + destruct (decide (uid ∈ ks)) as [Hin|Hnin];
        destruct (decide (uid ∈ k :: ks)) as [Hin'|Hnin']; try reflexivity.
      * exfalso. apply Hnin'. by right.
      * apply elem_of_cons in Hin' as [->|]; contradiction.
Qed.

(** The pruning loop, entry by entry. *)
Lemma prune_all_lookup (now : Q) (tracker : gmap Z (list Q)) (uid : Z) :
  prune_all now tracker !! uid = prune_entry now (tracker !! uid).
Proof.
  unfold prune_all. rewrite prune_keys_lookup by apply NoDup_fst_map_to_list.
  destruct (decide (uid ∈ (map_to_list tracker).*1)) as [|Hnin]; [reflexivity|].
  destruct (tracker !! uid) as [window|] eqn:Hl; [|reflexivity].
  exfalso. apply Hnin. apply list_elem_of_fmap. exists (uid, window).
  split; [reflexivity|]. by apply elem_of_map_to_list.
Qed.

Lemma prune_entry_window (now : Q) (entry : option (list Q)) :
  default [] (prune_entry now entry) =
  List.filter (in_window now) (default [] entry).
Proof.
  destruct entry as [window|]; simpl; [|reflexivity].
  by destruct (List.filter _ _).
Qed.

(** The admission rule of [check_rate_limit]. *)
Lemma check_rate_limit_rule (now : Q) (uid : Z) (w : world) :
  let window :=
    List.filter (in_window now) (default [] (user_request_tracker w !! uid)) in
  let pruned := prune_all now (user_request_tracker w) in
  check_rate_limit now uid w =
  if (length window <? RATE_LIMIT)%nat
  then Ret true (set_tracker (<[uid := window ++ [now]]> pruned) w)
  else Ret false (set_tracker pruned w).
Proof.
  intros window pruned. unfold check_rate_limit. step_m. simpl.
  fold pruned. pose proof (prune_entry_window now (user_request_tracker w !! uid)) as Hw.
  rewrite <- prune_all_lookup in Hw. fold pruned window in Hw.
  destruct (pruned !! uid) as [kept|] eqn:Hp; simpl in Hw.
  - rewrite <- Hw. destruct (length kept <? RATE_LIMIT)%nat; reflexivity.
  - rewrite <- Hw. reflexivity.
Qed.

Lemma filter_length_same {A} (f : A -> bool) (l : list A) :
  (length l <= length (List.filter f l))%nat -> List.filter f l = l.
Proof.
  induction l as [|a l IH]; simpl; [reflexivity|].
  pose proof (List.filter_length_le f l) as Hle.
  destruct (f a); simpl; intros H.
  - f_equal. apply IH. lia.
  - lia.
Qed.

(** The bound on the windows holds at start and after every call. *)
Lemma windows_bounded_empty : windows_bounded ∅.
Proof. intros uid window. by rewrite lookup_empty. Qed.

Lemma windows_bounded_check (now : Q) (uid : Z) (w w' : world) (b : bool) :
  windows_bounded (user_request_tracker w) ->
  check_rate_limit now uid w = Ret b w' ->
  windows_bounded (user_request_tracker w').
Proof.
  intros Hb. rewrite check_rate_limit_rule.
  assert (Hp : windows_bounded (prune_all now (user_request_tracker w))).
  { intros v win. rewrite prune_all_lookup.
    destruct (user_request_tracker w !! v) as [l|] eqn:Hl; simpl; [|done].
    pose proof (List.filter_length_le (in_window now) l) as Hle.
    specialize (Hb v l Hl).
    destruct (List.filter (in_window now) l) eqn:Hf; [done|].
    intros [= <-]. lia. }
  destruct (Nat.ltb_spec
              (length (List.filter (in_window now)
                         (default [] (user_request_tracker w !! uid))))
              RATE_LIMIT) as [Hlt|Hge].
  - intros [= <- <-]. simpl. intros v win.
    destruct (decide (v = uid)) as [->|Hne].
    + rewrite lookup_insert_eq. intros [= <-]. rewrite length_app. simpl.
      unfold RATE_LIMIT in *. lia.
    + rewrite lookup_insert_ne by done. apply Hp.
  - intros [= <- <-]. exact Hp.
Qed.

Ltac next_call :=
  cbn [answers]; rewrite check_rate_limit_rule;
  cbn [user_request_tracker set_tracker];
  rewrite ?lookup_insert_eq; cbn [default from_option id List.filter app];
  rewrite ?in_window_true by (unfold TIME_WINDOW in *; lra);
  cbn [List.filter app length Nat.ltb Nat.leb RATE_LIMIT].

(** Five calls within the window pass, the sixth does not, and a call
    sixty seconds or more after the first one passes again. *)
Lemma burst_answers (uid : Z) (w : world) (t1 t2 t3 t4 t5 t6 t7 : Q) :
  user_request_tracker w !! uid = None ->
  (t1 <= t2)%Q -> (t2 <= t3)%Q -> (t3 <= t4)%Q -> (t4 <= t5)%Q ->
  (t5 <= t6)%Q -> (t6 - t1 < 60)%Q -> (60 <= t7 - t1)%Q ->
  answers uid [t1; t2; t3; t4; t5; t6; t7] w =
  [true; true; true; true; true; false; true].
Proof.
  intros Hnone H12 H23 H34 H45 H56 Hin Hout.
  cbn [answers]. rewrite check_rate_limit_rule, Hnone.
  cbn [default from_option List.filter app length Nat.ltb Nat.leb RATE_LIMIT].
  do 5 next_call.
  cbn [answers]. rewrite check_rate_limit_rule.
  cbn [user_request_tracker set_tracker].
  rewrite prune_all_lookup, lookup_insert_eq, prune_entry_window.
  cbn [default from_option id].
  replace (List.filter (in_window t6) [t1; t2; t3; t4; t5])
    with [t1; t2; t3; t4; t5]
    by (cbn [List.filter]; rewrite !in_window_true by lra; reflexivity).
  change (List.filter (in_window t7) [t1; t2; t3; t4; t5])
    with (if in_window t7 t1 then t1 :: List.filter (in_window t7) [t2; t3; t4; t5]
          else List.filter (in_window t7) [t2; t3; t4; t5]).
  rewrite (in_window_false t7 t1) by lra.
  assert (Hlen : (length (List.filter (in_window t7) [t2; t3; t4; t5])
                  <? RATE_LIMIT)%nat = true).
  { pose proof (List.filter_length_le (in_window t7) [t2; t3; t4; t5]) as Hle.
    apply Nat.ltb_lt. change (length [t2; t3; t4; t5]) with 4%nat in Hle.
    unfold RATE_LIMIT. lia. }
  rewrite Hlen. reflexivity.
Qed.

(** C1: [check_rate_limit] first prunes every window of the readings that
    are sixty seconds old or older.  It answers true exactly when the
    caller's pruned window holds fewer than five readings, and then
    appends the current reading to it; otherwise it answers false and the
    caller's window is the one it was (always the pruned one, and, as no
    window ever exceeds the limit, the one before the call).  Other
    users' windows are pruned and nothing else changes.  So five calls of
    one user within sixty seconds pass, a sixth is refused, and a call
    sixty seconds or more after the first passes again. *)
Theorem check_rate_limit_sliding_window :
  (forall now t : Q, in_window now t = true <-> (now - t < 60)%Q) /\
  (forall (now : Q) (uid : Z) (w : world),
     let window :=
       List.filter (in_window now) (default [] (user_request_tracker w !! uid)) in
     exists w',
       check_rate_limit now uid w = Ret (length window <? RATE_LIMIT)%nat w' /\
       w' = set_tracker (user_request_tracker w') w /\
       (forall v, v <> uid ->
          user_request_tracker w' !! v =
          prune_entry now (user_request_tracker w !! v)) /\
       ((length window < RATE_LIMIT)%nat ->
          user_request_tracker w' !! uid = Some (window ++ [now])) /\
       ((RATE_LIMIT <= length window)%nat ->
          user_request_tracker w' !! uid = Some window /\
          (windows_bounded (user_request_tracker w) ->
           user_request_tracker w' !! uid = user_request_tracker w !! uid))) /\
  (forall (uid : Z) (w : world) (t1 t2 t3 t4 t5 t6 t7 : Q),
     user_request_tracker w !! uid = None ->
     (t1 <= t2)%Q -> (t2 <= t3)%Q -> (t3 <= t4)%Q -> (t4 <= t5)%Q ->
     (t5 <= t6)%Q -> (t6 - t1 < 60)%Q -> (60 <= t7 - t1)%Q ->
     answers uid [t1; t2; t3; t4; t5; t6; t7] w =
     [true; true; true; true; true; false; true]).
Proof.
  split; [intros now t; apply Qltb_spec|]. split; [|exact burst_answers].
  intros now uid w window. rewrite check_rate_limit_rule. fold window.
  destruct (Nat.ltb_spec (length window) RATE_LIMIT) as [Hlt|Hge].
  - eexists. split; [reflexivity|]. cbn [user_request_tracker set_tracker].
    split; [reflexivity|]. split; [|split].
    + intros v Hv. rewrite lookup_insert_ne by done. apply prune_all_lookup.
    + intros _. apply lookup_insert_eq.
    + intros Hge. lia.
  - eexists. split; [reflexivity|]. cbn [user_request_tracker set_tracker].
    split; [reflexivity|]. split; [|split].
    + intros v Hv. apply prune_all_lookup.
    + intros Hlt. lia.
    + intros _. rewrite prune_all_lookup.
      assert (Hpruned : prune_entry now (user_request_tracker w !! uid) = Some window).
      { subst window. destruct (user_request_tracker w !! uid) as [l|]; simpl in *.
        - destruct (List.filter (in_window now) l); [simpl in Hge; unfold RATE_LIMIT in Hge; lia | reflexivity].
        - unfold RATE_LIMIT in Hge. lia. }
      split; [exact Hpruned|]. intros Hb. rewrite Hpruned. subst window.
      destruct (user_request_tracker w !! uid) as [l|] eqn:Hl; simpl in *.
      * f_equal. apply filter_length_same. specialize (Hb uid l Hl). lia.
      * unfold RATE_LIMIT in Hge. lia.
Qed.

Lemma check_rate_limit_sliding_window_demo :
  answers 7 [0; 10; 20; 30; 40; 59; 60]%Q initial_world =
  [true; true; true; true; true; false; true].
Proof.
  apply (proj2 (proj2 check_rate_limit_sliding_window) 7 initial_world
           0%Q 10%Q 20%Q 30%Q 40%Q 59%Q 60%Q);
    [reflexivity | lra | lra | lra | lra | lra | lra | lra].
Defined.

(** ** The buttons stage: [receive_buttons] *)

Lemma parse_buttons_acc (defs : list string) : forall acc,
  parse_buttons defs acc =
  match parse_buttons defs [] with
  | inl report => inl report
  | inr buttons => inr (acc ++ buttons)
  end.
Proof.
  induction defs as [|seg rest IH]; intros acc; simpl.
  - by rewrite app_nil_r.
  - destruct (Text.contains_char "|" seg); simpl; [|reflexivity].
    destruct (_ || _); simpl; [|reflexivity].
    rewrite (IH (acc ++ _)), (IH [_]).
    destruct (parse_buttons rest []); [reflexivity|]. by rewrite <- app_assoc.
Qed.

(** One round of the loop. *)
Lemma parse_buttons_cons (seg : string) (rest : list string) :
  parse_buttons (seg :: rest) [] =
  if segment_ok seg then
    match parse_buttons rest [] with
    | inl report => inl report
    | inr buttons => inr (segment_button seg :: buttons)
    end
  else inl (segment_report seg).
Proof.
  unfold segment_ok, segment_report. cbn [parse_buttons].
  destruct (Text.contains_char "|" seg); simpl; [|reflexivity].
  fold (segment_url seg). fold (segment_text seg).
  destruct (_ || _); simpl; [|reflexivity].
  apply parse_buttons_acc.
Qed.

(** The loop succeeds exactly on batches whose segments all pass, with
    one button per segment in order; otherwise its report is that of the
    first segment that fails. *)
Lemma parse_buttons_rule (defs : list string) :
  match parse_buttons defs [] with
  | inr buttons =>
      forallb segment_ok defs = true /\ buttons = map segment_button defs
  | inl report =>
      exists good bad rest,
        defs = good ++ bad :: rest /\ forallb segment_ok good = true /\
        segment_ok bad = false /\ report = segment_report bad
  end.
Proof.
  induction defs as [|seg rest IH]; [by split|].
  rewrite parse_buttons_cons. destruct (segment_ok seg) eqn:Hok.
  - destruct (parse_buttons rest []) as [report|buttons].
    + destruct IH as (good & bad & rest' & -> & Hgood & Hbad & ->).
      exists (seg :: good), bad, rest'. simpl. by rewrite Hok, Hgood.
    + destruct IH as [Hall ->]. simpl. by rewrite Hok, Hall.
  - exists [], seg, rest. by rewrite Hok.
Qed.

Lemma parse_buttons_fails_iff (defs : list string) :
  (exists report, parse_buttons defs [] = inl report) <->
  forallb segment_ok defs = false.
Proof.
  pose proof (parse_buttons_rule defs) as H.
  destruct (parse_buttons defs []) as [report|buttons].
  - destruct H as (good & bad & rest & -> & Hgood & Hbad & _).
    split; [intros _ | eauto].
    rewrite forallb_app. simpl. rewrite Hbad, andb_false_r. reflexivity.
  - destruct H as [Hall _]. rewrite Hall. split; [intros [? [=]] | discriminate].
Qed.

(** A batch that fails validation: one reply, nothing else happens. *)
Lemma receive_buttons_invalid (e : env) (u : update) (w : world) (report : message) :
  upd_text u <> "/skip"%string ->
  parse_buttons (button_definitions (upd_text u)) [] = inl report ->
  receive_buttons e u w =
  Ret AWAITING_BUTTONS (set_sent (sent w ++ [(upd_chat_id u, report)]) w).
Proof.
  intros Hskip Hparse. unfold receive_buttons.
  destruct (String.eqb_spec (upd_text u) "/skip") as [Heq|_]; [contradiction|].
  rewrite Hparse. reflexivity.
Qed.

Lemma receive_buttons_valid (e : env) (u : update) (w : world)
    (buttons : list button) :
  upd_text u <> "/skip"%string ->
  parse_buttons (button_definitions (upd_text u)) [] = inr buttons ->
  exists w',
    receive_buttons e u w = Ret AWAITING_FILTER_TRIGGER w' /\
    user_data w' = with_buttons (Some buttons) (user_data w).
Proof.
  intros Hskip Hparse. unfold receive_buttons.
  destruct (String.eqb_spec (upd_text u) "/skip") as [Heq|_]; [contradiction|].
  rewrite Hparse. eexists. split; reflexivity.
Qed.

(** C5, as the specification words it, asks for exactly one bar in every
    accepted segment; the loop splits at the first bar only, and a second
    one becomes part of the address. *)
Lemma two_bars_accepted :
  ~ (forall text buttons,
       parse_buttons (button_definitions text) [] = inr buttons ->
       Forall (fun seg => count_char "|" seg = 1%nat) (button_definitions text)).
Proof.
  intros Hclaim.
  specialize (Hclaim "A|http://a.com|b"%string
                [{| btn_text := "A"; btn_url := "http://a.com|b" |}] eq_refl).
  apply Forall_cons_1 in Hclaim as [Hone _]. vm_compute in Hone. discriminate.
Qed.

(** C5 (amended): the trimmed text is split on commas and every piece
    trimmed.  The batch is accepted exactly when every segment has a bar
    and the text after its first bar, trimmed, starts with [http://] or
    [https://]; the staged buttons are then those of the segments, in
    order.  Otherwise nothing is staged, the conversation stays in
    AwaitingButtons and the single reply is that of the first failing
    segment: the invalid-URL text naming its address, or the fixed
    invalid-format text when it has no bar. *)
Theorem button_batch_rule :
  (forall (e : env) (u : update) (w : world),
     upd_text u <> "/skip"%string ->
     let defs := button_definitions (upd_text u) in
     if forallb segment_ok defs then
       exists w',
         receive_buttons e u w = Ret AWAITING_FILTER_TRIGGER w' /\
         filter_buttons (user_data w') = Some (map segment_button defs)
     else
       exists good bad rest,
         defs = good ++ bad :: rest /\ forallb segment_ok good = true /\
         segment_ok bad = false /\
         receive_buttons e u w =
         Ret AWAITING_BUTTONS
             (set_sent (sent w ++ [(upd_chat_id u, segment_report bad)]) w)) /\
  parse_buttons (button_definitions "A|http://a.com, B|https://b.com") [] =
    inr [{| btn_text := "A"; btn_url := "http://a.com" |};
         {| btn_text := "B"; btn_url := "https://b.com" |}] /\
  parse_buttons (button_definitions "A|ftp://x") [] = inl (MsgInvalidURL "ftp://x") /\
  (forall seg, Text.contains_char "|" seg = false ->
     segment_ok seg = false /\ segment_report seg = MsgInvalidButtonFormat).
Proof.
  split; [|split; [reflexivity | split; [reflexivity|]]].
  - intros e u w Hskip defs.
    pose proof (parse_buttons_rule defs) as Hrule. subst defs.
    destruct (parse_buttons (button_definitions (upd_text u)) [])
      as [report|buttons] eqn:Hparse.
    + destruct Hrule as (good & bad & rest & Hdefs & Hgood & Hbad & ->).
      assert (Hall : forallb segment_ok (button_definitions (upd_text u)) = false)
        by (apply parse_buttons_fails_iff; eauto).
      rewrite Hall. exists good, bad, rest. repeat split; try assumption.
      by apply receive_buttons_invalid.
    + destruct Hrule as [Hall ->]. rewrite Hall.
      destruct (receive_buttons_valid e u w _ Hskip Hparse) as (w' & Hrun & Hud).
      exists w'. split; [exact Hrun|]. by rewrite Hud.
  - intros seg Hbar. unfold segment_ok, segment_report. by rewrite Hbar.
Qed.

Lemma button_batch_rule_demo :
  exists good bad rest,
    button_definitions "A|http://a.com, B|ftp://x" = good ++ bad :: rest /\
    forallb segment_ok good = true /\ segment_ok bad = false /\
    receive_buttons demo_env (demo_update "A|http://a.com, B|ftp://x")
      demo_world_buttons =
    Ret AWAITING_BUTTONS
        (set_sent (sent demo_world_buttons ++ [(7, segment_report bad)])
                  demo_world_buttons).
Proof.
  apply (proj1 button_batch_rule demo_env
           (demo_update "A|http://a.com, B|ftp://x") demo_world_buttons).
  discriminate.
Defined.

(** C6: when the button text fails validation the conversation stays in
    AwaitingButtons and the handler only sends its report: the session
    (staged image, staged buttons, everything else in it) and the rest of
    the state are exactly what they were. *)
Theorem invalid_buttons_leave_session (e : env) (u : update) (w : world) :
  upd_text u <> "/skip"%string ->
  forallb segment_ok (button_definitions (upd_text u)) = false ->
  exists report w',
    receive_buttons e u w = Ret AWAITING_BUTTONS w' /\
    w' = set_sent (sent w ++ [(upd_chat_id u, report)]) w /\
    user_data w' = user_data w /\
    filter_image_path (user_data w') = filter_image_path (user_data w) /\
    filter_image_filename (user_data w') = filter_image_filename (user_data w) /\
    filter_buttons (user_data w') = filter_buttons (user_data w) /\
    image_files w' = image_files w /\
    filters_cache w' = filters_cache w /\
    filters_file w' = filters_file w.
Proof.
  intros Hskip [report Hparse]%parse_buttons_fails_iff.
  exists report. eexists. split; [by apply receive_buttons_invalid|].
  repeat split.
Qed.

Lemma invalid_buttons_leave_session_demo :
  exists report w',
    receive_buttons demo_env (demo_update "Docs|example.com") demo_world_buttons =
      Ret AWAITING_BUTTONS w' /\
    w' = set_sent (sent demo_world_buttons ++ [(7, report)]) demo_world_buttons /\
    user_data w' = user_data demo_world_buttons /\
    filter_image_path (user_data w') = filter_image_path (user_data demo_world_buttons) /\
    filter_image_filename (user_data w') =
      filter_image_filename (user_data demo_world_buttons) /\
    filter_buttons (user_data w') = filter_buttons (user_data demo_world_buttons) /\
    image_files w' = image_files demo_world_buttons /\
    filters_cache w' = filters_cache demo_world_buttons /\
    filters_file w' = filters_file demo_world_buttons.
Proof.
  apply (invalid_buttons_leave_session demo_env (demo_update "Docs|example.com")
           demo_world_buttons); [discriminate | reflexivity].
Defined.

(** ** Time-out and cancel *)

(** The callback of the timeout job sends its text and does nothing else. *)
Lemma timeout_callback_only_sends (j : job) (w : world) :
  timeout_callback j w =
  Ret tt (set_sent (sent w ++ [(job_chat_id j, MsgTimeUp)]) w).
Proof. reflexivity. Qed.

(** [stop_conversation] never touches the job queue. *)
Lemma stop_conversation_job_queue (e : env) (u : update) (w : world) :
  match stop_conversation e u w with
  | Ret _ w' | Raise _ w' => job_queue w' = job_queue w
  end.
Proof.
  unfold stop_conversation. step_m.
  destruct (filter_image_path (user_data w)) as [[path|]|]; simpl; try reflexivity.
  destruct (bool_decide _); simpl; [|reflexivity].
  destruct (remove_fails e); reflexivity.
Qed.

(** C3 (the code does otherwise): user 7 starts the form and sends
    nothing; when the timeout job runs, the callback only sends the
    "Time's up" text.  The conversation is still in AwaitingImage and the
    session still holds its data, so the photo that arrives afterwards is
    handled: it is staged and the form moves on to AwaitingButtons. *)
Theorem timeout_leaves_session_alive :
  let b1 := run demo_env [Command "filter" (demo_update "/filter");
                          JobRuns demo_job] initial_bot in
  let b2 := step demo_env (Photo (demo_update "")) b1 in
  sent (state b1) = [(7, MsgSendImage); (7, MsgTimeUp)] /\
  job_queue (state b1) = [] /\
  conversation b1 = AWAITING_IMAGE /\
  user_data (state b1) =
    with_timeout_job (Some "filter_timeout_7"%string)
      (with_chat_id (Some 7) user_data_empty) /\
  receive_image demo_env (demo_update "") (state b1) =
    Ret AWAITING_BUTTONS (state b2) /\
  conversation b2 = AWAITING_BUTTONS /\
  filter_image_filename (user_data (state b2)) =
    Some (Some "7_20240101_120000.jpg"%string) /\
  sent (state b2) = [(7, MsgSendImage); (7, MsgTimeUp); (7, MsgImageReceived)].
Proof. vm_compute. repeat split. Qed.

(** C4 (the code does otherwise): user 7 starts the form and sends
    [/stop] at once.  The session is cleared and the cancellation is
    reported, but the timeout job is still in the queue; when it runs,
    the user is told that time is up.  And once the image has been
    skipped, the session holds [None] as image path, on which
    [os.path.exists] raises: [/stop] then clears nothing, reports nothing
    and the conversation stays where it was. *)
Theorem stop_keeps_timeout_job :
  let b1 := run demo_env [Command "filter" (demo_update "/filter");
                          Command "stop" (demo_update "/stop")] initial_bot in
  let b2 := step demo_env (JobRuns demo_job) b1 in
  let b3 := run demo_env [Command "filter" (demo_update "/filter");
                          Command "skip" (demo_update "/skip")] initial_bot in
  conversation b1 = END /\
  user_data (state b1) = user_data_empty /\
  sent (state b1) = [(7, MsgSendImage); (7, MsgCanceled)] /\
  job_queue (state b1) = [demo_job] /\
  sent (state b2) = [(7, MsgSendImage); (7, MsgCanceled); (7, MsgTimeUp)] /\
  conversation b3 = AWAITING_BUTTONS /\
  stop_conversation demo_env (demo_update "/stop") (state b3) =
    Raise TypeError (state b3) /\
  step demo_env (Command "stop" (demo_update "/stop")) b3 = b3.
Proof. vm_compute. repeat split. Qed.

(** * Further properties of the handlers *)

(** ** The rate limiter over sequences of calls *)

Lemma in_window_now (now : Q) : in_window now now = true.
Proof. apply in_window_true. lra. Qed.

Lemma filter_in_window_Forall (now : Q) (l : list Q) :
  Forall (fun t => in_window now t = true) (List.filter (in_window now) l).
Proof.
  apply List.Forall_forall. intros t Hin. apply List.filter_In in Hin. tauto.
Qed.

Lemma run_calls_app (c1 c2 : list (Q * Z)) (w : world) :
  run_calls (c1 ++ c2) w = run_calls c2 (run_calls c1 w).
Proof.
  revert w. induction c1 as [|[t uid] r IH]; intros w; simpl; [reflexivity|].
  destruct (check_rate_limit t uid w); apply IH.
Qed.

Lemma run_calls_bounded (calls : list (Q * Z)) : forall w : world,
  windows_bounded (user_request_tracker w) ->
  windows_bounded (user_request_tracker (run_calls calls w)).
Proof.
  induction calls as [|[t uid] r IH]; intros w Hb; simpl; [exact Hb|].
  destruct (check_rate_limit t uid w) as [b w'|x w'] eqn:Hc.
  - apply IH. eapply windows_bounded_check; eauto.
  - rewrite check_rate_limit_rule in Hc.
    destruct (_ <? _)%nat in Hc; discriminate.
Qed.

(** X1: whatever the history of calls since the process started, after a
    call at time [t] every window of the table is non-empty, has at most
    five readings, and holds only readings less than sixty seconds old
    at [t]. *)
Theorem limiter_keeps_table_tidy
    (history : list (Q * Z)) (t : Q) (uid : Z) (w : world) :
  tracker_tidy t
    (user_request_tracker
       (run_calls (history ++ [(t, uid)]) (set_tracker ∅ w))).
Proof.
  rewrite run_calls_app.
  pose proof (run_calls_bounded history (set_tracker ∅ w) windows_bounded_empty)
    as Hb.
  set (w0 := run_calls history (set_tracker ∅ w)) in *.
  cbn [run_calls]. rewrite check_rate_limit_rule.
  set (window := List.filter (in_window t)
                   (default [] (user_request_tracker w0 !! uid))).
  assert (Hpruned : forall v win,
             prune_all t (user_request_tracker w0) !! v = Some win ->
             win <> [] /\ (length win <= RATE_LIMIT)%nat /\
             Forall (fun x => in_window t x = true) win).
  { intros v win. rewrite prune_all_lookup.
    destruct (user_request_tracker w0 !! v) as [l|] eqn:Hl; simpl; [|done].
    pose proof (List.filter_length_le (in_window t) l) as Hle.
    pose proof (filter_in_window_Forall t l) as Hall.
    specialize (Hb v l Hl).
    destruct (List.filter (in_window t) l) eqn:Hf; [done|].
    intros [= <-]. split; [done|]. split; [lia | exact Hall]. }
  destruct (Nat.ltb_spec (length window) RATE_LIMIT) as [Hlt|Hge];
    cbn [user_request_tracker set_tracker]; [|exact Hpruned].
  intros v win. destruct (decide (v = uid)) as [->|Hne].
  - rewrite lookup_insert_eq. intros [= <-]. split; [by destruct window|].
    split.
    + rewrite length_app. simpl. lia.
    + apply Forall_app. split; [apply filter_in_window_Forall|].
      constructor; [apply in_window_now | constructor].
  - rewrite lookup_insert_ne by done. apply Hpruned.
Qed.

Lemma filter_filter_weaker {A} (f g : A -> bool) (l : list A) :
  (forall x, f x = true -> g x = true) ->
  List.filter f (List.filter g l) = List.filter f l.
Proof.
  intros Hfg. induction l as [|a l IH]; simpl; [reflexivity|].
  destruct (g a) eqn:Hg; simpl.
  - destruct (f a); by rewrite IH.
  - destruct (f a) eqn:Hf; [|exact IH]. apply Hfg in Hf. congruence.
Qed.

Lemma in_window_earlier (t0 t x : Q) :
  (t0 <= t)%Q -> in_window t x = true -> in_window t0 x = true.
Proof.
  intros Hle Hx%Qltb_spec. apply Qltb_spec. unfold TIME_WINDOW in *. lra.
Qed.

Lemma prune_entry_twice (t0 t : Q) (entry : option (list Q)) :
  (t0 <= t)%Q -> prune_entry t (prune_entry t0 entry) = prune_entry t entry.
Proof.
  intros Hle. destruct entry as [l|]; simpl; [|reflexivity].
  pose proof (filter_filter_weaker (in_window t) (in_window t0) l
                (fun x => in_window_earlier t0 t x Hle)) as Hff.
  destruct (List.filter (in_window t0) l) as [|a l0] eqn:Hf0.
  - simpl in Hff. rewrite <- Hff. reflexivity.
  - cbn [prune_entry]. rewrite Hff. reflexivity.
Qed.

(** X2: with a clock that does not run backwards, a call of one user
    changes nothing for another: the other user's next call gets the
    same answer and leaves the same window as if the first call had not
    happened. *)
Theorem other_users_call_is_invisible
    (t0 t : Q) (uid v : Z) (w w0 : world) (b0 : bool) :
  uid <> v -> (t0 <= t)%Q ->
  check_rate_limit t0 uid w = Ret b0 w0 ->
  exists b w1 w1',
    check_rate_limit t v w = Ret b w1 /\
    check_rate_limit t v w0 = Ret b w1' /\
    user_request_tracker w1' !! v = user_request_tracker w1 !! v.
Proof.
  intros Hne Hle Hfirst.
  assert (Hv : user_request_tracker w0 !! v =
               prune_entry t0 (user_request_tracker w !! v)).
  { rewrite check_rate_limit_rule in Hfirst.
    destruct (_ <? _)%nat in Hfirst; injection Hfirst as <- <-;
      cbn [user_request_tracker set_tracker].
    - rewrite lookup_insert_ne by done. apply prune_all_lookup.
    - apply prune_all_lookup. }
  rewrite !check_rate_limit_rule, Hv, prune_entry_window.
  rewrite (filter_filter_weaker _ _ _ (fun x => in_window_earlier t0 t x Hle)).
  destruct (_ <? _)%nat; do 3 eexists; (split; [reflexivity|]);
    (split; [reflexivity|]); cbn [user_request_tracker set_tracker].
  - by rewrite !lookup_insert_eq.
  - by rewrite !prune_all_lookup, Hv, prune_entry_twice.
Qed.

Lemma other_users_call_is_invisible_demo :
  exists b w1 w1',
    check_rate_limit 1005%Q 7 demo_world_buttons = Ret b w1 /\
    check_rate_limit 1005%Q 7
      (set_tracker
         (<[8 := [] ++ [1000%Q]]>
            (prune_all 1000%Q (user_request_tracker demo_world_buttons)))
         demo_world_buttons) = Ret b w1' /\
    user_request_tracker w1' !! 7 = user_request_tracker w1 !! 7.
Proof.
  apply (other_users_call_is_invisible 1000%Q 1005%Q 8 7 demo_world_buttons _ true);
    [discriminate | lra | vm_compute; reflexivity].
Defined.

(** ** Entering the form: [filter_command] *)

(** The three ways [filter_command] ends. *)
Lemma filter_command_rule (e : env) (u : update) (w : world) :
  let uid := upd_user_id u in
  let chat := upd_chat_id u in
  let window :=
    List.filter (in_window (clock e)) (default [] (user_request_tracker w !! uid)) in
  let pruned := prune_all (clock e) (user_request_tracker w) in
  let w1 := set_tracker (<[uid := window ++ [clock e]]> pruned) w in
  filter_command e u w =
  if (length window <? RATE_LIMIT)%nat then
    if in_group (upd_chat_type u) && negb (admin e) then
      Ret END (set_sent (sent w ++ [(chat, MsgNeedAdmin)]) w1)
    else
      Ret AWAITING_IMAGE
        {| user_request_tracker := user_request_tracker w1;
           filters_cache := filters_cache w; filters_file := filters_file w;
           image_files := image_files w;
           user_data := with_timeout_job (Some (timeout_name uid))
                          (with_chat_id (Some chat) (user_data w));
           job_queue := job_queue w ++
                        [{| job_name := timeout_name uid; job_delay := 60;
                            job_chat_id := chat; job_user_id := uid |}];
           sent := sent w ++ [(chat, MsgSendImage)]; logged := logged w |}
  else
    Ret END (set_sent (sent w ++ [(chat, MsgTooQuickly)]) (set_tracker pruned w)).
Proof.
  intros uid chat window pruned w1. unfold filter_command. step_m.
  fold uid chat. rewrite check_rate_limit_rule. fold window pruned.
  destruct (length window <? RATE_LIMIT)%nat; simpl; [|reflexivity].
  destruct (in_group (upd_chat_type u) && negb (admin e)); reflexivity.
Qed.

(** X3: a user who already has five readings in the window gets the
    "too quickly" reply and nothing else: no session data, no timeout
    job, and the refused attempt is not recorded in the window. *)
Theorem filter_command_refused_when_limited (e : env) (u : update) (w : world) :
  let window :=
    List.filter (in_window (clock e))
      (default [] (user_request_tracker w !! upd_user_id u)) in
  (RATE_LIMIT <= length window)%nat ->
  exists w',
    filter_command e u w = Ret END w' /\
    sent w' = sent w ++ [(upd_chat_id u, MsgTooQuickly)] /\
    user_data w' = user_data w /\ job_queue w' = job_queue w /\
    user_request_tracker w' !! upd_user_id u = Some window.
Proof.
  intros window Hfull. rewrite filter_command_rule. fold window.
  destruct (Nat.ltb_spec (length window) RATE_LIMIT) as [Hlt|_]; [lia|].
  eexists. split; [reflexivity|]. repeat split.
  cbn [user_request_tracker set_sent set_tracker].
  rewrite prune_all_lookup. subst window.
  destruct (user_request_tracker w !! upd_user_id u) as [l|]; simpl in *.
  - destruct (List.filter (in_window (clock e)) l);
      [simpl in Hfull; unfold RATE_LIMIT in Hfull; lia | reflexivity].
  - unfold RATE_LIMIT in Hfull. lia.
Qed.

Lemma filter_command_refused_when_limited_demo :
  exists w',
    filter_command demo_env (demo_update "/filter") demo_world_limited = Ret END w' /\
    sent w' = sent demo_world_limited ++ [(7, MsgTooQuickly)] /\
    user_data w' = user_data demo_world_limited /\
    job_queue w' = job_queue demo_world_limited /\
    user_request_tracker w' !! 7 = Some [950; 960; 970; 980; 990]%Q.
Proof.
  apply (filter_command_refused_when_limited demo_env (demo_update "/filter")
           demo_world_limited).
  vm_compute. apply le_n.
Defined.

(** X4: in a group, a user who is not an administrator gets the "need
    to be an admin" reply; no session data is stored and no timeout job
    is registered, but the attempt has been counted by the limiter. *)
Theorem filter_command_needs_admin_in_groups (e : env) (u : update) (w : world) :
  let window :=
    List.filter (in_window (clock e))
      (default [] (user_request_tracker w !! upd_user_id u)) in
  (length window < RATE_LIMIT)%nat ->
  in_group (upd_chat_type u) = true -> admin e = false ->
  exists w',
    filter_command e u w = Ret END w' /\
    sent w' = sent w ++ [(upd_chat_id u, MsgNeedAdmin)] /\
    user_data w' = user_data w /\ job_queue w' = job_queue w /\
    user_request_tracker w' !! upd_user_id u = Some (window ++ [clock e]).
Proof.
  intros window Hroom Hgroup Hadmin. rewrite filter_command_rule. fold window.
  destruct (Nat.ltb_spec (length window) RATE_LIMIT) as [_|Hge]; [|lia].
  rewrite Hgroup, Hadmin. eexists. split; [reflexivity|]. repeat split.
  cbn [user_request_tracker set_sent set_tracker]. apply lookup_insert_eq.
Qed.

Lemma filter_command_needs_admin_in_groups_demo :
  exists w',
    filter_command demo_env_member (demo_group_update "/filter") initial_world =
      Ret END w' /\
    sent w' = [(-100200, MsgNeedAdmin)] /\
    user_data w' = user_data_empty /\ job_queue w' = [] /\
    user_request_tracker w' !! 8 = Some [1000%Q].
Proof.
  apply (filter_command_needs_admin_in_groups demo_env_member
           (demo_group_update "/filter") initial_world);
    [vm_compute; lia | reflexivity | reflexivity].
Defined.

(** X5: outside groups, or for an administrator, a call the limiter
    lets through opens the form: the chat id and the name of the timeout
    job are stored in the session (whatever else it held stays), one job
    named after the user, due in sixty seconds, is added to the queue,
    and the user is asked for the image. *)
Theorem filter_command_opens_form (e : env) (u : update) (w : world) :
  let uid := upd_user_id u in
  let window :=
    List.filter (in_window (clock e)) (default [] (user_request_tracker w !! uid)) in
  (length window < RATE_LIMIT)%nat ->
  in_group (upd_chat_type u) = false \/ admin e = true ->
  exists w',
    filter_command e u w = Ret AWAITING_IMAGE w' /\
    user_data w' =
      with_timeout_job (Some (timeout_name uid))
        (with_chat_id (Some (upd_chat_id u)) (user_data w)) /\
    job_queue w' =
      job_queue w ++ [{| job_name := timeout_name uid; job_delay := 60;
                         job_chat_id := upd_chat_id u; job_user_id := uid |}] /\
    sent w' = sent w ++ [(upd_chat_id u, MsgSendImage)] /\
    user_request_tracker w' !! uid = Some (window ++ [clock e]).
Proof.
  intros uid window Hroom Hmay. rewrite filter_command_rule. fold uid window.
  destruct (Nat.ltb_spec (length window) RATE_LIMIT) as [_|Hge]; [|lia].
  assert (Hgate : in_group (upd_chat_type u) && negb (admin e) = false).
  { destruct Hmay as [-> | ->]; [reflexivity | apply andb_false_r]. }
  rewrite Hgate. eexists. split; [reflexivity|]. repeat split.
  cbn [user_request_tracker set_tracker]. apply lookup_insert_eq.
Qed.

Lemma filter_command_opens_form_demo :
  exists w',
    filter_command demo_env_member (demo_update "/filter") initial_world =
      Ret AWAITING_IMAGE w' /\
    user_data w' =
      with_timeout_job (Some (timeout_name 7))
        (with_chat_id (Some 7) user_data_empty) /\
    job_queue w' = [demo_job] /\
    sent w' = [(7, MsgSendImage)] /\
    user_request_tracker w' !! 7 = Some [1000%Q].
Proof.
  apply (filter_command_opens_form demo_env_member (demo_update "/filter")
           initial_world); [vm_compute; lia | left; reflexivity].
Defined.

(** ** The image stage and the timeout job *)

Lemma append_inv_head (p a b : string) :
  (p ++ a)%string = (p ++ b)%string -> a = b.
Proof. induction p as [|c p IH]; simpl; [done|]. intros [= H]. exact (IH H). Qed.

Lemma timeout_name_inj : Inj (=) (=) timeout_name.
Proof.
  intros a b H. apply append_inv_head in H. exact (TextFacts.str_of_int_inj _ _ H).
Qed.

Lemma remove_timeout_jobs_named (uid : Z) (w : world) :
  timeout_job (user_data w) = Some (timeout_name uid) ->
  remove_timeout_jobs w =
  Ret tt (set_jobs
            (List.filter (fun j => negb (String.eqb (job_name j) (timeout_name uid)))
                         (job_queue w)) w).
Proof. intros H. unfold remove_timeout_jobs. step_m. rewrite H. reflexivity. Qed.

(** Removing the timeout jobs changes the job queue only. *)
Lemma remove_timeout_jobs_total (w : world) :
  exists q, remove_timeout_jobs w = Ret tt (set_jobs q w).
Proof.
  unfold remove_timeout_jobs. step_m.
  destruct (timeout_job (user_data w)) as [name|].
  - destruct (negb (String.eqb name "")); [eexists; reflexivity|].
    exists (job_queue w). by destruct w.
  - exists (job_queue w). by destruct w.
Qed.

(** X6: the first thing [receive_image] and [skip_image] do is remove the
    jobs registered under the session's timeout name, and this holds in
    every outcome of the handler (also when the download fails or it
    raises).  Only that user's timeout goes: a job named after another
    user stays in the queue. *)
Theorem image_step_cancels_own_timeout
    (e : env) (u : update) (w : world) (uid : Z) :
  timeout_job (user_data w) = Some (timeout_name uid) ->
  let kept :=
    List.filter (fun j => negb (String.eqb (job_name j) (timeout_name uid)))
                (job_queue w) in
  match receive_image e u w with
  | Ret _ w' | Raise _ w' => job_queue w' = kept
  end /\
  match skip_image e u w with
  | Ret _ w' | Raise _ w' => job_queue w' = kept
  end /\
  (forall j, In j kept -> job_name j <> timeout_name uid) /\
  (forall j v, In j (job_queue w) -> job_name j = timeout_name v -> v <> uid ->
               In j kept).
Proof.
  intros Hname kept. repeat split.
  - unfold receive_image. step_m. rewrite (remove_timeout_jobs_named uid w Hname).
    fold kept. simpl. destruct (last (upd_photo u)); simpl; [|reflexivity].
    destruct (get_file_fails e); simpl; [reflexivity|].
    destruct (filter_chat_id (user_data w)); simpl; [|reflexivity].
    destruct (download_fails e); reflexivity.
  - unfold skip_image. step_m. rewrite (remove_timeout_jobs_named uid w Hname).
    reflexivity.
  - intros j [_ Hj]%List.filter_In Heq.
    apply negb_true_iff in Hj. apply String.eqb_neq in Hj. contradiction.
  - intros j v Hin Hj Hv. apply List.filter_In. split; [exact Hin|].
    apply negb_true_iff, String.eqb_neq. rewrite Hj.
    intros Heq%timeout_name_inj. contradiction.
Qed.

Lemma image_step_cancels_own_timeout_demo :
  let kept :=
    List.filter (fun j => negb (String.eqb (job_name j) (timeout_name 7)))
                (job_queue demo_world_image) in
  match receive_image demo_env (demo_update "") demo_world_image with
  | Ret _ w' | Raise _ w' => job_queue w' = kept
  end /\
  match skip_image demo_env (demo_update "") demo_world_image with
  | Ret _ w' | Raise _ w' => job_queue w' = kept
  end /\
  (forall j, In j kept -> job_name j <> timeout_name 7) /\
  (forall j v, In j (job_queue demo_world_image) -> job_name j = timeout_name v ->
               v <> 7 -> In j kept).
Proof.
  apply (image_step_cancels_own_timeout demo_env (demo_update "") demo_world_image 7).
  reflexivity.
Defined.

(** X7: with a photo in the update, a chat id in the session and
    Telegram delivering the file, [receive_image] stores the image under
    [data/images/<chat id>_<stamp>.jpg], records path and file name in
    the session and moves to AwaitingButtons; a [/stop] right after
    removes exactly that file again and empties the session. *)
Theorem stop_releases_staged_image
    (e e' : env) (u u' : update) (w : world) (chat_id : Z) (file_id : string) :
  let filename := (Text.str_of_int chat_id ++ "_" ++ stamp e ++ ".jpg")%string in
  let path := (IMAGES_DIR ++ "/" ++ filename)%string in
  last (upd_photo u) = Some file_id ->
  filter_chat_id (user_data w) = Some chat_id ->
  get_file_fails e = false -> download_fails e = false ->
  remove_fails e' = false ->
  exists w1 w2,
    receive_image e u w = Ret AWAITING_BUTTONS w1 /\
    image_files w1 = {[path]} ∪ image_files w /\
    filter_image_path (user_data w1) = Some (Some path) /\
    filter_image_filename (user_data w1) = Some (Some filename) /\
    stop_conversation e' u' w1 = Ret END w2 /\
    image_files w2 = image_files w ∖ {[path]} /\
    user_data w2 = user_data_empty.
Proof.
  intros filename path Hphoto Hchat Hget Hdown Hrm.
  unfold receive_image, stop_conversation. step_m.
  destruct (remove_timeout_jobs_total w) as [q Hq]. rewrite Hq. simpl.
  rewrite Hphoto. simpl. rewrite Hget. simpl. rewrite Hchat. simpl.
  rewrite Hdown. simpl. fold filename. fold path.
  do 2 eexists. split; [reflexivity|]. simpl.
  split; [reflexivity|]. split; [reflexivity|]. split; [reflexivity|].
  rewrite bool_decide_eq_true_2
    by (apply elem_of_union_l, elem_of_singleton; reflexivity).
  rewrite Hrm. simpl. split; [reflexivity|]. split; [|reflexivity].
  apply set_eq. intros x.
  cbn [image_files set_sent set_user_data set_images].
  rewrite !elem_of_difference, elem_of_union, elem_of_singleton. tauto.
Qed.

Lemma stop_releases_staged_image_demo :
  exists w1 w2,
    receive_image demo_env (demo_update "") demo_world_image =
      Ret AWAITING_BUTTONS w1 /\
    image_files w1 =
      {[ "data/images/7_20240101_120000.jpg"%string ]} ∪ image_files demo_world_image /\
    filter_image_path (user_data w1) =
      Some (Some "data/images/7_20240101_120000.jpg"%string) /\
    filter_image_filename (user_data w1) = Some (Some "7_20240101_120000.jpg"%string) /\
    stop_conversation demo_env (demo_update "/stop") w1 = Ret END w2 /\
    image_files w2 =
      image_files demo_world_image ∖ {[ "data/images/7_20240101_120000.jpg"%string ]} /\
    user_data w2 = user_data_empty.
Proof.
  apply (stop_releases_staged_image demo_env demo_env (demo_update "")
           (demo_update "/stop") demo_world_image 7 "AgACAgIAAxkBAAIB");
    reflexivity.
Defined.

(** X8: when Telegram refuses the file (at [get_file], or at the
    download once the chat id has been read), [receive_image] logs the
    error, tells the user and ends the conversation; no image file
    appears, and the session keeps the data it had: nothing clears it on
    this path. *)
Theorem receive_image_failure_ends_form
    (e : env) (u : update) (w : world) (file_id : string) :
  last (upd_photo u) = Some file_id ->
  get_file_fails e = true \/
  (download_fails e = true /\ is_Some (filter_chat_id (user_data w))) ->
  exists w',
    receive_image e u w = Ret END w' /\
    sent w' = sent w ++ [(upd_chat_id u, MsgDownloadFailed)] /\
    logged w' = logged w ++ [LogDownloadError] /\
    image_files w' = image_files w /\
    user_data w' = user_data w.
Proof.
  intros Hphoto Hfail. unfold receive_image. step_m.
  destruct (remove_timeout_jobs_total w) as [q Hq]. rewrite Hq. simpl.
  rewrite Hphoto. simpl. destruct (get_file_fails e) eqn:Hget; simpl.
  - eexists. split; [reflexivity|]. repeat split.
  - destruct Hfail as [?|[Hdown [chat Hchat]]]; [discriminate|].
    rewrite Hchat. simpl. rewrite Hdown. simpl.
    eexists. split; [reflexivity|]. repeat split.
Qed.

Lemma receive_image_failure_ends_form_demo :
  exists w',
    receive_image demo_env_no_file (demo_update "") demo_world_image = Ret END w' /\
    sent w' = sent demo_world_image ++ [(7, MsgDownloadFailed)] /\
    logged w' = logged demo_world_image ++ [LogDownloadError] /\
    image_files w' = image_files demo_world_image /\
    user_data w' = user_data demo_world_image.
Proof.
  apply (receive_image_failure_ends_form demo_env_no_file (demo_update "")
           demo_world_image "AgACAgIAAxkBAAIB"); [reflexivity | left; reflexivity].
Defined.

(** ** Cancelling: [stop_conversation] *)

Lemma stop_conversation_clears (e : env) (u : update) (w w' : world) (r : Z) :
  stop_conversation e u w = Ret r w' -> r = END /\ user_data w' = user_data_empty.
Proof.
  unfold stop_conversation. step_m.
  destruct (filter_image_path (user_data w)) as [[path|]|]; simpl.
  - destruct (bool_decide _); simpl.
    + destruct (remove_fails e); simpl; intros [= <- <-]; done.
    + intros [= <- <-]; done.
  - discriminate.
  - intros [= <- <-]; done.
Qed.

(** X9: cancelling is safe to repeat.  After a [/stop] that went through,
    a second one finds an empty session: it removes no file, logs
    nothing, and only sends the cancellation text again. *)
Theorem stop_twice_releases_once
    (e1 e2 : env) (u1 u2 : update) (w w1 : world) (r : Z) :
  stop_conversation e1 u1 w = Ret r w1 ->
  stop_conversation e2 u2 w1 =
  Ret END (set_sent (sent w1 ++ [(upd_chat_id u2, MsgCanceled)]) w1).
Proof.
  intros [_ Hud]%stop_conversation_clears.
  unfold stop_conversation. step_m. rewrite Hud. simpl.
  destruct w1; simpl in *. by subst.
Qed.

Lemma stop_twice_releases_once_demo :
  stop_conversation demo_env (demo_update "/stop") demo_world_stopped =
  Ret END (set_sent (sent demo_world_stopped ++ [(7, MsgCanceled)])
                    demo_world_stopped).
Proof.
  apply (stop_twice_releases_once demo_env demo_env (demo_update "/stop")
           (demo_update "/stop") demo_world_buttons demo_world_stopped END).
  vm_compute. reflexivity.
Defined.

(** X10: when removing the staged image fails, [/stop] still goes
    through: the failure is logged, the session is emptied, the
    cancellation is sent and the conversation ends; the file stays on
    disk. *)
Theorem stop_survives_remove_failure
    (e : env) (u : update) (w : world) (path : string) :
  filter_image_path (user_data w) = Some (Some path) ->
  path ∈ image_files w ->
  remove_fails e = true ->
  exists w',
    stop_conversation e u w = Ret END w' /\
    image_files w' = image_files w /\
    logged w' = logged w ++ [LogRemoveError] /\
    user_data w' = user_data_empty /\
    sent w' = sent w ++ [(upd_chat_id u, MsgCanceled)].
Proof.
  intros Hpath Hin Hrm. unfold stop_conversation. step_m.
  rewrite Hpath. simpl. rewrite bool_decide_eq_true_2 by exact Hin.
  rewrite Hrm. simpl. eexists. split; [reflexivity|]. repeat split.
Qed.

Lemma stop_survives_remove_failure_demo :
  exists w',
    stop_conversation demo_env_locked (demo_update "/stop") demo_world_buttons =
      Ret END w' /\
    image_files w' = image_files demo_world_buttons /\
    logged w' = logged demo_world_buttons ++ [LogRemoveError] /\
    user_data w' = user_data_empty /\
    sent w' = sent demo_world_buttons ++ [(7, MsgCanceled)].
Proof.
  apply (stop_survives_remove_failure demo_env_locked (demo_update "/stop")
           demo_world_buttons "data/images/7_20240101_115950.jpg").
  - reflexivity.
  - vm_compute. reflexivity.
  - reflexivity.
Defined.

(** X11: [skip_image] stores [None] as image path, and [stop_conversation]
    hands whatever is stored under that key to [os.path.exists], which
    raises on [None].  So after a skipped image every [/stop] raises
    TypeError before anything is cleaned up or sent. *)
Theorem stop_after_skipped_image_raises
    (e e' : env) (u u' : update) (w w1 : world) (r : Z) :
  skip_image e u w = Ret r w1 ->
  stop_conversation e' u' w1 = Raise TypeError w1.
Proof.
  unfold skip_image. step_m.
  destruct (remove_timeout_jobs_total w) as [q Hq]. rewrite Hq. simpl.
  intros [= <- <-]. reflexivity.
Qed.

Lemma stop_after_skipped_image_raises_demo :
  stop_conversation demo_env (demo_update "/stop") demo_world_skipped =
  Raise TypeError demo_world_skipped.
Proof.
  apply (stop_after_skipped_image_raises demo_env demo_env (demo_update "/skip")
           (demo_update "/stop") demo_world_image demo_world_skipped
           AWAITING_BUTTONS).
  vm_compute. reflexivity.
Defined.

(** ** The buttons stage: what gets staged, and the preview *)

Lemma split_length (sep : ascii) (s : string) :
  length (Text.split sep s) = S (count_char sep s).
Proof.
  induction s as [|c r IH]; simpl; [reflexivity|].
  destruct (Ascii.eqb c sep); simpl.
  - by rewrite IH.
  - destruct (Text.split sep r); simpl in *; [discriminate | exact IH].
Qed.

Lemma segment_ok_url (seg : string) :
  segment_ok seg = true ->
  Text.startswith "http://" (segment_url seg) = true \/
  Text.startswith "https://" (segment_url seg) = true.
Proof.
  unfold segment_ok. intros [_ H]%andb_true_iff. by apply orb_true_iff in H.
Qed.

(** X12: whenever [receive_buttons] goes on to AwaitingTrigger on a text
    other than [/skip], it has staged one button per comma-separated
    segment (one more than the text, trimmed, has commas), and the
    address of every staged button starts with [http://] or
    [https://]. *)
Theorem staged_buttons_have_web_urls (e : env) (u : update) (w w' : world) :
  upd_text u <> "/skip"%string ->
  receive_buttons e u w = Ret AWAITING_FILTER_TRIGGER w' ->
  exists buttons,
    filter_buttons (user_data w') = Some buttons /\
    length buttons = S (count_char "," (Text.strip (upd_text u))) /\
    Forall (fun b => Text.startswith "http://" (btn_url b) = true \/
                     Text.startswith "https://" (btn_url b) = true) buttons.
Proof.
  intros Hskip Hrun.
  pose proof (parse_buttons_rule (button_definitions (upd_text u))) as Hrule.
  destruct (parse_buttons (button_definitions (upd_text u)) [])
    as [report|buttons] eqn:Hparse.
  - rewrite (receive_buttons_invalid e u w report Hskip Hparse) in Hrun.
    discriminate.
  - destruct (receive_buttons_valid e u w buttons Hskip Hparse) as (w2 & Hrun2 & Hud).
    rewrite Hrun2 in Hrun. injection Hrun as <-.
    destruct Hrule as [Hall ->]. exists (map segment_button (button_definitions (upd_text u))).
    split; [by rewrite Hud|]. split.
    + unfold button_definitions. by rewrite !length_map, split_length.
    + apply List.Forall_forall. intros b [seg [<- Hin]]%List.in_map_iff.
      apply segment_ok_url. rewrite List.forallb_forall in Hall. by apply Hall.
Qed.

Lemma staged_buttons_have_web_urls_demo :
  exists buttons,
    filter_buttons
      (user_data
         (match receive_buttons demo_env (demo_update "Docs|https://d.io, Chat|http://c.io")
                  demo_world_buttons with
          | Ret _ w' | Raise _ w' => w'
          end)) = Some buttons /\
    length buttons = 2%nat /\
    Forall (fun b => Text.startswith "http://" (btn_url b) = true \/
                     Text.startswith "https://" (btn_url b) = true) buttons.
Proof.
  apply (staged_buttons_have_web_urls demo_env
           (demo_update "Docs|https://d.io, Chat|http://c.io") demo_world_buttons);
    [discriminate | vm_compute; reflexivity].
Defined.

Lemma keyboard_rows_acc (buttons : list button) :
  forall row keyboard,
    keyboard_rows buttons row keyboard = keyboard ++ keyboard_rows buttons row [].
Proof.
  induction buttons as [|b rest IH]; intros row keyboard; simpl.
  - destruct row; [by rewrite app_nil_r | reflexivity].
  - destruct (length (row ++ [b]) =? 2)%nat.
    + rewrite (IH [] (keyboard ++ _)), (IH [] [_]). by rewrite <- app_assoc.
    + apply IH.
Qed.

(** The preview loop, two buttons at a time. *)
Lemma keyboard_rows_pair (a b : button) (rest : list button) :
  keyboard_rows (a :: b :: rest) [] [] = [a; b] :: keyboard_rows rest [] [].
Proof. simpl. by rewrite keyboard_rows_acc. Qed.

Lemma pair_induction {A} (P : list A -> Prop) :
  P [] -> (forall a, P [a]) -> (forall a b l, P l -> P (a :: b :: l)) ->
  forall l, P l.
Proof.
  intros H0 H1 H2 l. assert (H : P l /\ forall a, P (a :: l)); [|tauto].
  induction l as [|x l [IHl IHc]]; [auto|]. split; [apply IHc|].
  intros a. apply H2, IHl.
Qed.

(** X13: the preview keyboard holds the staged buttons in their order,
    in rows of two: no row is empty, every row before the last has
    exactly two buttons and the last has one or two, so [n] buttons give
    [n/2] rows rounded up. *)
Theorem keyboard_rows_in_pairs (buttons : list button) :
  let rows := keyboard_rows buttons [] [] in
  concat rows = buttons /\
  (length buttons <= 2 * length rows <= length buttons + 1)%nat /\
  Forall (fun row => (1 <= length row <= 2)%nat) rows /\
  (forall full last_row, rows = full ++ [last_row] ->
     Forall (fun row => length row = 2%nat) full).
Proof.
  induction buttons as [| a | a b rest IH] using pair_induction.
  - simpl. repeat split; try lia; [constructor|].
    intros full last_row H. by destruct full.
  - simpl. repeat split; try lia.
    + constructor; [simpl; lia | constructor].
    + intros [|r full] last_row H; [constructor|].
      injection H as _ H. by destruct full.
  - cbv zeta in *. rewrite keyboard_rows_pair.
    destruct IH as (Hcat & Hlen & Hall & Hfull). simpl. repeat split.
    + by rewrite Hcat.
    + lia.
    + lia.
    + constructor; [simpl; lia | exact Hall].
    + intros [|r full] last_row H; [constructor|].
      injection H as <- H. constructor; [reflexivity|]. eapply Hfull, H.
Qed.

(** ** Normalized triggers *)

Lemma lower_char_space (c : ascii) : Text.is_space (Text.lower_char c) = Text.is_space c.
Proof. destruct c as [[] [] [] [] [] [] [] []]; reflexivity. Qed.

Lemma lower_char_idem (c : ascii) : Text.lower_char (Text.lower_char c) = Text.lower_char c.
Proof. destruct c as [[] [] [] [] [] [] [] []]; reflexivity. Qed.

Lemma lower_idem (s : string) : Text.lower (Text.lower s) = Text.lower s.
Proof. induction s as [|c r IH]; simpl; [reflexivity|]. by rewrite lower_char_idem, IH. Qed.

Lemma lstrip_lower (s : string) : Text.lstrip (Text.lower s) = Text.lower (Text.lstrip s).
Proof.
  induction s as [|c r IH]; simpl; [reflexivity|].
  rewrite lower_char_space. destruct (Text.is_space c); [exact IH | reflexivity].
Qed.

Lemma rstrip_lower (s : string) : Text.rstrip (Text.lower s) = Text.lower (Text.rstrip s).
Proof.
  induction s as [|c r IH]; simpl; [reflexivity|].
  rewrite IH, lower_char_space. destruct (Text.rstrip r); simpl; [|reflexivity].
  destruct (Text.is_space c); reflexivity.
Qed.

Lemma rstrip_idem (s : string) : Text.rstrip (Text.rstrip s) = Text.rstrip s.
Proof.
  induction s as [|c r IH]; simpl; [reflexivity|].
  destruct (Text.rstrip r) as [|c' r'] eqn:Hr.
  - destruct (Text.is_space c) eqn:Hc; simpl; [reflexivity|]. by rewrite Hc.
  - simpl in *. rewrite IH. reflexivity.
Qed.

(** Trimming the right end keeps a first character that is not a blank. *)
Lemma lstrip_rstrip (s : string) :
  Text.lstrip (Text.rstrip (Text.lstrip s)) = Text.rstrip (Text.lstrip s).
Proof.
  induction s as [|c r IH]; [reflexivity|].
  cbn [Text.lstrip]. destruct (Text.is_space c) eqn:Hc; [exact IH|].
  cbn [Text.rstrip]. destruct (Text.rstrip r); rewrite ?Hc; simpl;
    rewrite ?Hc; reflexivity.
Qed.

Lemma strip_idem (s : string) : Text.strip (Text.strip s) = Text.strip s.
Proof. unfold Text.strip. by rewrite lstrip_rstrip, rstrip_idem. Qed.

(** Normalizing twice is normalizing once. *)
Lemma normalize_idem (s : string) :
  Text.lower (Text.strip (Text.lower (Text.strip s))) = Text.lower (Text.strip s).
Proof.
  unfold Text.strip at 1. rewrite lstrip_lower, rstrip_lower.
  fold (Text.strip (Text.strip s)). by rewrite strip_idem, lower_idem.
Qed.

(** ** The trigger stage: what a creation leaves behind *)

(** The refusal of a trigger the chat already has. *)
Lemma receive_filter_trigger_rejects
    (e : env) (u : update) (w : world) (chat_id : Z)
    (table : list (string * pyval)) :
  filter_chat_id (user_data w) = Some chat_id ->
  Dict.get chat_id (filters_cache w) = Some (PDict table) ->
  Dict.mem (Text.lower (Text.strip (upd_text u))) table = true ->
  receive_filter_trigger e u w =
  Ret AWAITING_FILTER_TRIGGER
      (set_sent (sent w ++ [(upd_chat_id u,
                             MsgTriggerExists (Text.lower (Text.strip (upd_text u))))])
                w).
Proof.
  intros Hchat Hg Hmem.
  assert (Hload : ensure_loaded e w = Ret tt w).
  { apply ensure_loaded_nonempty. intros Hnil. rewrite Hnil in Hg. discriminate. }
  unfold receive_filter_trigger. step_m. rewrite Hchat. simpl.
  rewrite Hload. simpl. rewrite Hg. simpl. rewrite Hmem. reflexivity.
Qed.

(** X14: a creation changes one entry of the store.  Every other chat
    keeps its table, every other trigger of the chat keeps its filter,
    the triggers the chat had keep their order with the new one after
    them, and a chat that had no table yet goes after the chats already
    known. *)
Theorem creation_touches_one_entry
    (e : env) (u : update) (w w1 : world) (chat_id : Z)
    (table : list (string * pyval)) :
  let trigger := Text.lower (Text.strip (upd_text u)) in
  filter_chat_id (user_data w) = Some chat_id ->
  ensure_loaded e w = Ret tt w1 ->
  default (PDict []) (Dict.get chat_id (filters_cache w1)) = PDict table ->
  Dict.mem trigger table = false ->
  exists w' table',
    receive_filter_trigger e u w = Ret END w' /\
    Dict.get chat_id (filters_cache w') = Some (PDict table') /\
    Dict.keys table' = Dict.keys table ++ [trigger] /\
    (forall other, other <> trigger -> Dict.get other table' = Dict.get other table) /\
    (forall chat, chat <> chat_id ->
       Dict.get chat (filters_cache w') = Dict.get chat (filters_cache w1)) /\
    Dict.keys (filters_cache w') =
      if Dict.mem chat_id (filters_cache w1) then Dict.keys (filters_cache w1)
      else Dict.keys (filters_cache w1) ++ [chat_id].
Proof.
  intros trigger Hchat Hload Htable Hmem.
  destruct (receive_filter_trigger_creates e u w w1 chat_id table
              Hchat Hload Htable Hmem) as (w' & Hrun & Hcache & _).
  exists w', (Dict.set trigger (PDict (make_filter_data e u (user_data w))) table).
  split; [exact Hrun|]. rewrite Hcache. split; [apply DictFacts.get_set_eq|].
  split; [|split; [|split]].
  - rewrite DictFacts.keys_set. fold trigger. by rewrite Hmem.
  - intros other Hne. by apply DictFacts.get_set_ne.
  - intros chat Hne. by apply DictFacts.get_set_ne.
  - apply DictFacts.keys_set.
Qed.

Lemma creation_touches_one_entry_demo :
  exists w' table',
    receive_filter_trigger demo_env (demo_update " Welcome ") demo_world_trigger =
      Ret END w' /\
    Dict.get 7 (filters_cache w') = Some (PDict table') /\
    Dict.keys table' = ["hello"; "rules"; "welcome"]%string /\
    (forall other, other <> "welcome"%string ->
       Dict.get other table' =
       Dict.get other [("hello"%string, demo_filter); ("rules"%string, demo_filter)]) /\
    (forall chat, chat <> 7 ->
       Dict.get chat (filters_cache w') = Dict.get chat (filters_cache demo_world_trigger)) /\
    Dict.keys (filters_cache w') = [7; -1001234567890].
Proof.
  apply (creation_touches_one_entry demo_env (demo_update " Welcome ")
           demo_world_trigger demo_world_trigger 7
           [("hello"%string, demo_filter); ("rules"%string, demo_filter)]);
    reflexivity.
Defined.

(** X15: a stored trigger is normalized (normalizing it again changes
    nothing), and once a filter has been created every later text that
    normalizes to its trigger, the trigger itself included, is refused
    in that chat with the "already exists" reply. *)
Theorem created_trigger_is_then_refused
    (e : env) (u : update) (w w1 : world) (chat_id : Z)
    (table : list (string * pyval)) :
  let trigger := Text.lower (Text.strip (upd_text u)) in
  filter_chat_id (user_data w) = Some chat_id ->
  ensure_loaded e w = Ret tt w1 ->
  default (PDict []) (Dict.get chat_id (filters_cache w1)) = PDict table ->
  Dict.mem trigger table = false ->
  exists w',
    receive_filter_trigger e u w = Ret END w' /\
    Text.lower (Text.strip trigger) = trigger /\
    forall (e2 : env) (u2 : update) (w2 : world),
      filter_chat_id (user_data w2) = Some chat_id ->
      filters_cache w2 = filters_cache w' ->
      Text.lower (Text.strip (upd_text u2)) = trigger ->
      receive_filter_trigger e2 u2 w2 =
      Ret AWAITING_FILTER_TRIGGER
          (set_sent (sent w2 ++ [(upd_chat_id u2, MsgTriggerExists trigger)]) w2).
Proof.
  intros trigger Hchat Hload Htable Hmem.
  destruct (receive_filter_trigger_creates e u w w1 chat_id table
              Hchat Hload Htable Hmem) as (w' & Hrun & Hcache & _).
  exists w'. split; [exact Hrun|]. split; [apply normalize_idem|].
  intros e2 u2 w2 Hchat2 Hsame Hnorm. rewrite <- Hnorm.
  apply (receive_filter_trigger_rejects e2 u2 w2 chat_id
           (Dict.set trigger (PDict (make_filter_data e u (user_data w))) table)).
  - exact Hchat2.
  - rewrite Hsame, Hcache. apply DictFacts.get_set_eq.
  - rewrite Hnorm. apply DictFacts.mem_true.
    eapply DictFacts.get_Some_keys, DictFacts.get_set_eq.
Qed.

Lemma created_trigger_is_then_refused_demo :
  exists w',
    receive_filter_trigger demo_env (demo_update " Welcome ") demo_world_trigger =
      Ret END w' /\
    Text.lower (Text.strip "welcome") = "welcome"%string /\
    forall (e2 : env) (u2 : update) (w2 : world),
      filter_chat_id (user_data w2) = Some 7 ->
      filters_cache w2 = filters_cache w' ->
      Text.lower (Text.strip (upd_text u2)) = "welcome"%string ->
      receive_filter_trigger e2 u2 w2 =
      Ret AWAITING_FILTER_TRIGGER
          (set_sent (sent w2 ++ [(upd_chat_id u2, MsgTriggerExists "welcome")]) w2).
Proof.
  apply (created_trigger_is_then_refused demo_env (demo_update " Welcome ")
           demo_world_trigger demo_world_trigger 7
           [("hello"%string, demo_filter); ("rules"%string, demo_filter)]);
    reflexivity.
Defined.

Lemma wf_set {K V : Type} `{EqDecision K} (d : Dict.t K V) (k : K) (v : V) :
  Dict.wf d -> Dict.wf (Dict.set k v d).
Proof.
  unfold Dict.wf. intros Hwf. rewrite DictFacts.keys_set.
  destruct (Dict.mem k d) eqn:Hm; [exact Hwf|].
  apply DictFacts.mem_false, DictFacts.get_None_keys in Hm.
  apply NoDup_app. split; [exact Hwf|]. split; [|apply NoDup_singleton].
  intros x Hx ->%list_elem_of_singleton. contradiction.
Qed.

(** A creation with a working disk: cache and file afterwards. *)
Lemma receive_filter_trigger_saves
    (e : env) (u : update) (w w1 : world) (chat_id : Z)
    (table : list (string * pyval)) :
  let trigger := Text.lower (Text.strip (upd_text u)) in
  let store :=
    Dict.set chat_id
      (PDict (Dict.set trigger (PDict (make_filter_data e u (user_data w))) table))
      (filters_cache w1) in
  write_result e = WriteOk ->
  filter_chat_id (user_data w) = Some chat_id ->
  ensure_loaded e w = Ret tt w1 ->
  default (PDict []) (Dict.get chat_id (filters_cache w1)) = PDict table ->
  Dict.mem trigger table = false ->
  exists w',
    receive_filter_trigger e u w = Ret END w' /\
    filters_cache w' = store /\
    filters_file w' = Some (Document (PDict (Dict.remap Text.str_of_int store []))).
Proof.
  intros trigger store Hok Hchat Hload Htable Hmem.
  destruct (ensure_loaded_frame e w w1 Hload) as (_ & Hud & _).
  unfold receive_filter_trigger. step_m. rewrite Hchat. simpl.
  rewrite Hload. simpl. rewrite Htable. simpl.
  fold trigger. rewrite Hmem. rewrite Hud. rewrite length_fmap.
  destruct (Dict.get chat_id (filters_cache w1)) as [v|] eqn:Hg; simpl in Htable.
  - subst v.
    assert (Hm : Dict.mem chat_id (filters_cache w1) = true)
      by (apply DictFacts.mem_true; eapply DictFacts.get_Some_keys, Hg).
    rewrite Hm. simpl. rewrite Hg. simpl. unfold save_filters. step_m.
    rewrite Hok. simpl. eexists. split; [reflexivity|]. split; reflexivity.
  - injection Htable as <-.
    assert (Hm : Dict.mem chat_id (filters_cache w1) = false)
      by (apply DictFacts.mem_false, Hg).
    rewrite Hm. simpl. rewrite DictFacts.get_set_eq. simpl.
    rewrite set_set_eq. unfold save_filters. step_m.
    rewrite Hok. simpl. eexists. split; [reflexivity|]. split; reflexivity.
Qed.

(** X16: a creation is written through.  When the write succeeds (and
    the chat ids of the cache are distinct, as in any dict), the file
    holds the whole store with the new filter, keyed by the chat ids in
    decimal; a process that starts afterwards with an empty cache and
    can read the file loads exactly the store the first one had. *)
Theorem creation_survives_restart
    (e : env) (u : update) (w w1 : world) (chat_id : Z)
    (table : list (string * pyval)) :
  let trigger := Text.lower (Text.strip (upd_text u)) in
  write_result e = WriteOk ->
  Dict.wf (filters_cache w1) ->
  filter_chat_id (user_data w) = Some chat_id ->
  ensure_loaded e w = Ret tt w1 ->
  default (PDict []) (Dict.get chat_id (filters_cache w1)) = PDict table ->
  Dict.mem trigger table = false ->
  exists w',
    receive_filter_trigger e u w = Ret END w' /\
    filters_file w' =
      Some (Document (PDict (Dict.rekey Text.str_of_int (filters_cache w')))) /\
    forall (e2 : env) (w2 : world),
      read_fails e2 = false -> filters_cache w2 = [] ->
      filters_file w2 = filters_file w' ->
      ensure_loaded e2 w2 = Ret tt (set_cache (filters_cache w') w2).
Proof.
  intros trigger Hok Hwf Hchat Hload Htable Hmem.
  destruct (receive_filter_trigger_saves e u w w1 chat_id table
              Hok Hchat Hload Htable Hmem) as (w' & Hrun & Hcache & Hfile).
  assert (Hwf' : Dict.wf (filters_cache w')) by (rewrite Hcache; by apply wf_set).
  rewrite <- Hcache in Hfile. rewrite remap_str_of_int in Hfile by exact Hwf'.
  exists w'. split; [exact Hrun|]. split; [exact Hfile|].
  intros e2 w2 Hread Hempty Hsame.
  unfold ensure_loaded, load_filters. step_m.
  rewrite Hempty, Hsame, Hfile, Hread. simpl.
  rewrite (DictFacts.remap_partial_distinct _ Text.str_of_int (filters_cache w')
             TextFacts.int_of_str_of_int []) by exact Hwf'.
  reflexivity.
Qed.

Lemma creation_survives_restart_demo :
  exists w',
    receive_filter_trigger demo_env (demo_update " Welcome ") demo_world_trigger =
      Ret END w' /\
    filters_file w' =
      Some (Document (PDict (Dict.rekey Text.str_of_int (filters_cache w')))) /\
    forall (e2 : env) (w2 : world),
      read_fails e2 = false -> filters_cache w2 = [] ->
      filters_file w2 = filters_file w' ->
      ensure_loaded e2 w2 = Ret tt (set_cache (filters_cache w') w2).
Proof.
  apply (creation_survives_restart demo_env (demo_update " Welcome ")
           demo_world_trigger demo_world_trigger 7
           [("hello"%string, demo_filter); ("rules"%string, demo_filter)]);
    try reflexivity.
  unfold Dict.wf. apply (bool_decide_unpack _). vm_compute. exact I.
Defined.

(** ** Loading a file that decodes *)

Lemma remap_partial_None {V : Type} (items : list (string * V)) :
  forall acc : Dict.t Z V,
  Dict.remap_partial Text.int_of_str items acc = None <->
  exists k, k ∈ Dict.keys items /\ Text.int_of_str k = None.
Proof.
  induction items as [|[k v] r IH]; intros acc; simpl.
  - split; [discriminate|]. intros (k & Hk & _). by apply elem_of_nil in Hk.
  - destruct (Text.int_of_str k) as [z|] eqn:Hz.
    + rewrite IH. split; intros (k' & Hin & Hk').
      * exists k'. split; [by right | exact Hk'].
      * apply elem_of_cons in Hin as [->|Hin]; [congruence|]. eauto.
    + split; [intros _ | reflexivity]. exists k. split; [left | exact Hz].
Qed.

Lemma remap_partial_Some {V : Type} (items : list (string * V)) :
  forall (acc store : Dict.t Z V),
  Dict.remap_partial Text.int_of_str items acc = Some store ->
  Dict.wf acc ->
  Dict.wf store /\
  forall z, z ∈ Dict.keys store <->
            z ∈ Dict.keys acc \/
            exists k, k ∈ Dict.keys items /\ Text.int_of_str k = Some z.
Proof.
  induction items as [|[k v] r IH]; intros acc store; simpl.
  - intros [= <-] Hwf. split; [exact Hwf|]. intros z. split; [auto|].
    intros [H|(k & Hk & _)]; [exact H | by apply elem_of_nil in Hk].
  - destruct (Text.int_of_str k) as [z0|] eqn:Hz; [|discriminate].
    intros Hrun Hwf. destruct (IH _ _ Hrun (wf_set acc z0 v Hwf)) as [Hwf' Hkeys].
    split; [exact Hwf'|]. intros z. rewrite Hkeys, DictFacts.keys_set.
    split.
    + intros [Hin|(k' & Hin & Hk')].
      * destruct (Dict.mem z0 acc); [by left|].
        apply elem_of_app in Hin as [Hin| ->%list_elem_of_singleton]; [by left|].
        right. exists k. split; [left | exact Hz].
      * right. exists k'. split; [by right | exact Hk'].
    + intros [Hin|(k' & Hin & Hk')].
      * left. destruct (Dict.mem z0 acc); [exact Hin|]. apply elem_of_app. by left.
      * apply elem_of_cons in Hin as [->|Hin].
        -- left. rewrite Hz in Hk'. injection Hk' as ->.
           destruct (Dict.mem z acc) eqn:Hm; [by apply DictFacts.mem_true|].
           apply elem_of_app. right. by apply list_elem_of_singleton.
        -- right. eauto.
Qed.

(** X17: on a file that decodes, [load_filters] never changes the state
    and has three outcomes.  A document that is not an object raises
    AttributeError; an object with a key that is not an integer literal
    raises ValueError; otherwise the store is returned, with distinct
    chat ids that are exactly the integers the keys denote. *)
Theorem load_filters_document_outcomes (e : env) (w : world) (data : pyval) :
  filters_file w = Some (Document data) ->
  read_fails e = false ->
  match load_filters e w with
  | Ret store w' =>
      w' = w /\ Dict.wf store /\
      exists items,
        data = PDict items /\
        forall z, z ∈ Dict.keys store <->
                  exists k, k ∈ Dict.keys items /\ Text.int_of_str k = Some z
  | Raise x w' =>
      w' = w /\
      ((x = AttributeError /\ forall items, data <> PDict items) \/
       (x = ValueError /\
        exists items k, data = PDict items /\ k ∈ Dict.keys items /\
                        Text.int_of_str k = None))
  end.
Proof.
  intros Hfile Hread. unfold load_filters. step_m. rewrite Hfile, Hread.
  destruct data as [| | | | |items]; simpl;
    try (split; [reflexivity|]; left; split; [reflexivity | intros ? [=]]).
  destruct (Dict.remap_partial Text.int_of_str items []) as [store|] eqn:Hrun; simpl.
  - destruct (remap_partial_Some items [] store Hrun (NoDup_nil_2)) as [Hwf Hkeys].
    split; [reflexivity|]. split; [exact Hwf|]. exists items. split; [reflexivity|].
    intros z. rewrite Hkeys. split; [|auto].
    intros [Hin|H]; [by apply elem_of_nil in Hin | exact H].
  - apply remap_partial_None in Hrun as (k & Hin & Hk).
    split; [reflexivity|]. right. split; [reflexivity|]. by exists items, k.
Qed.

Lemma load_filters_document_outcomes_demo :
  match load_filters demo_env demo_world_trigger with
  | Ret store w' =>
      w' = demo_world_trigger /\ Dict.wf store /\
      exists items,
        PDict (Dict.rekey Text.str_of_int demo_store) = PDict items /\
        forall z, z ∈ Dict.keys store <->
                  exists k, k ∈ Dict.keys items /\ Text.int_of_str k = Some z
  | Raise x w' =>
      w' = demo_world_trigger /\
      ((x = AttributeError /\
        forall items, PDict (Dict.rekey Text.str_of_int demo_store) <> PDict items) \/
       (x = ValueError /\
        exists items k, PDict (Dict.rekey Text.str_of_int demo_store) = PDict items /\
                        k ∈ Dict.keys items /\ Text.int_of_str k = None))
  end.
Proof.
  apply (load_filters_document_outcomes demo_env demo_world_trigger
           (PDict (Dict.rekey Text.str_of_int demo_store))); reflexivity.
Defined.

(** ** Listing: [list_filters] *)

Lemma list_lines_acc (items : list (string * pyval)) : forall i acc,
  list_lines i items acc =
  match list_lines i items [] with
  | inl x => inl x
  | inr lines => inr (acc ++ lines)
  end.
Proof.
  induction items as [|[trigger data] rest IH]; intros i acc; simpl.
  - by rewrite app_nil_r.
  - destruct (list_line i trigger data) as [x|line]; [reflexivity|].
    rewrite (IH (S i) (acc ++ [line])), (IH (S i) [line]).
    destruct (list_lines (S i) rest []); [reflexivity|]. by rewrite <- app_assoc.
Qed.

Lemma list_lines_app (a b : list (string * pyval)) : forall i,
  list_lines i (a ++ b) [] =
  match list_lines i a [] with
  | inl x => inl x
  | inr la =>
      match list_lines (i + length a) b [] with
      | inl x => inl x
      | inr lb => inr (la ++ lb)
      end
  end.
Proof.
  induction a as [|[trigger data] rest IH]; intros i; simpl.
  - rewrite Nat.add_0_r. by destruct (list_lines i b []).
  - destruct (list_line i trigger data) as [x|line]; [reflexivity|].
    rewrite (list_lines_acc (rest ++ b)), (list_lines_acc rest), IH.
    replace (S i + length rest)%nat with (i + S (length rest))%nat by lia.
    destruct (list_lines (S i) rest []); [reflexivity|].
    destruct (list_lines _ b []); [reflexivity|]. by rewrite app_assoc.
Qed.

Lemma list_line_fields (i : nat) (trigger : string) (data : pyval) (line : filter_line) :
  list_line i trigger data = inr line ->
  line_number line = i /\ line_trigger line = trigger.
Proof.
  unfold list_line. destruct (py_get "image" data); [|discriminate].
  destruct (py_get "buttons" data) as [buttons|]; [|discriminate].
  destruct (py_truthy buttons); [destruct (py_len buttons); [|discriminate]|];
    intros [= <-]; done.
Qed.

Lemma list_lines_fields (items : list (string * pyval)) : forall i lines,
  list_lines i items [] = inr lines ->
  line_trigger <$> lines = Dict.keys items /\
  line_number <$> lines = seq i (length items).
Proof.
  induction items as [|[trigger data] rest IH]; intros i lines; simpl.
  - intros [= <-]. done.
  - destruct (list_line i trigger data) as [x|line] eqn:Hline; [discriminate|].
    rewrite list_lines_acc.
    destruct (list_lines (S i) rest []) as [x|more] eqn:Hrest; [discriminate|].
    intros [= <-]. destruct (list_line_fields _ _ _ _ Hline) as [Hn Ht].
    destruct (IH _ _ Hrest) as [Ht' Hn']. cbn [app fmap list_fmap].
    by rewrite Hn, Ht, Ht', Hn'.
Qed.

(** X18: in a chat the store does not know, or whose table is empty,
    [/filters] answers that there are no filters, and does nothing else
    (beyond loading the cache when it was empty). *)
Theorem list_filters_without_filters (e : env) (u : update) (w w1 : world) :
  ensure_loaded e w = Ret tt w1 ->
  Dict.get (upd_chat_id u) (filters_cache w1) = None \/
  Dict.get (upd_chat_id u) (filters_cache w1) = Some (PDict []) ->
  list_filters e u w =
  Ret tt (set_sent (sent w1 ++ [(upd_chat_id u, MsgNoFilters)]) w1).
Proof.
  intros Hload Hnone. unfold list_filters. step_m. rewrite Hload. simpl.
  destruct Hnone as [-> | ->]; reflexivity.
Qed.

Lemma list_filters_without_filters_demo :
  list_filters demo_env (demo_group_update "/filters") demo_world_trigger =
  Ret tt (set_sent (sent demo_world_trigger ++ [(-100200, MsgNoFilters)])
                   demo_world_trigger).
Proof.
  apply (list_filters_without_filters demo_env (demo_group_update "/filters")
           demo_world_trigger demo_world_trigger); [reflexivity | left; reflexivity].
Defined.

(** X19: when [/filters] answers with a listing, the listing is the only
    thing sent, it has one line per trigger of the chat, in the order
    the triggers were added, and the lines are numbered from 1. *)
Theorem list_filters_lists_in_order
    (e : env) (u : update) (w w1 w' : world) (table : list (string * pyval)) :
  ensure_loaded e w = Ret tt w1 ->
  Dict.get (upd_chat_id u) (filters_cache w1) = Some (PDict table) ->
  table <> [] ->
  list_filters e u w = Ret tt w' ->
  exists lines,
    w' = set_sent (sent w1 ++ [(upd_chat_id u, MsgFilterList lines)]) w1 /\
    line_trigger <$> lines = Dict.keys table /\
    line_number <$> lines = seq 1 (length table).
Proof.
  intros Hload Hg Hne. unfold list_filters. step_m. rewrite Hload. simpl.
  rewrite Hg. simpl. destruct table as [|item rest]; [done|]. simpl negb. cbv iota.
  destruct (list_lines 1 (item :: rest) []) as [x|lines] eqn:Hlines;
    [discriminate|].
  intros [= <-]. exists lines. split; [reflexivity|].
  exact (list_lines_fields _ _ _ Hlines).
Qed.

Lemma list_filters_lists_in_order_demo :
  exists lines,
    match list_filters demo_env (demo_update "/filters") demo_world_trigger with
    | Ret _ w' | Raise _ w' => w'
    end = set_sent (sent demo_world_trigger ++ [(7, MsgFilterList lines)])
                   demo_world_trigger /\
    line_trigger <$> lines = ["hello"; "rules"]%string /\
    line_number <$> lines = [1; 2]%nat.
Proof.
  apply (list_filters_lists_in_order demo_env (demo_update "/filters")
           demo_world_trigger demo_world_trigger _
           [("hello"%string, demo_filter); ("rules"%string, demo_filter)]);
    [reflexivity | reflexivity | discriminate | vm_compute; reflexivity].
Defined.

(** The listing line of a filter made by [receive_filter_trigger]. *)
Lemma list_line_created (i : nat) (trigger : string) (e : env) (u : update)
    (d : user_data_t) :
  list_line i trigger (PDict (make_filter_data e u d)) =
  inr {| line_number := i; line_trigger := trigger;
         line_image := py_truthy (opt_str (default None (filter_image_filename d)));
         line_buttons :=
           match default [] (filter_buttons d) with
           | [] => None
           | buttons => Some (length buttons)
           end |}.
Proof.
  unfold list_line. simpl.
  destruct (default [] (filter_buttons d)) as [|b bs]; simpl; [reflexivity|].
  by rewrite length_fmap.
Qed.

(** X20: a filter just created shows up in the listing.  If the chat's
    triggers could be listed before the creation, [/filters] afterwards
    gives the same lines followed by one for the new trigger, numbered
    next, marked with an image when a file name was staged, and with the
    number of staged buttons when there are any. *)
Theorem created_filter_is_listed
    (e : env) (u : update) (w w1 : world) (chat_id : Z)
    (table : list (string * pyval)) (old : list filter_line) :
  let trigger := Text.lower (Text.strip (upd_text u)) in
  let line :=
    {| line_number := S (length table); line_trigger := trigger;
       line_image :=
         py_truthy (opt_str (default None (filter_image_filename (user_data w))));
       line_buttons :=
         match default [] (filter_buttons (user_data w)) with
         | [] => None
         | buttons => Some (length buttons)
         end |} in
  filter_chat_id (user_data w) = Some chat_id ->
  ensure_loaded e w = Ret tt w1 ->
  default (PDict []) (Dict.get chat_id (filters_cache w1)) = PDict table ->
  Dict.mem trigger table = false ->
  list_lines 1 table [] = inr old ->
  exists w',
    receive_filter_trigger e u w = Ret END w' /\
    forall (e2 : env) (u2 : update) (w2 : world),
      upd_chat_id u2 = chat_id ->
      filters_cache w2 = filters_cache w' ->
      list_filters e2 u2 w2 =
      Ret tt (set_sent (sent w2 ++ [(chat_id, MsgFilterList (old ++ [line]))]) w2).
Proof.
  intros trigger line Hchat Hload Htable Hmem Hold.
  destruct (receive_filter_trigger_creates e u w w1 chat_id table
              Hchat Hload Htable Hmem) as (w' & Hrun & Hcache & _).
  exists w'. split; [exact Hrun|]. intros e2 u2 w2 Hu2 Hsame.
  assert (Hg : Dict.get chat_id (filters_cache w2) =
               Some (PDict (table ++ [(trigger, PDict (make_filter_data e u (user_data w)))]))).
  { rewrite Hsame, Hcache, DictFacts.get_set_eq. do 2 f_equal.
    apply DictFacts.set_fresh. fold trigger.
    by apply DictFacts.get_None_keys, DictFacts.mem_false. }
  assert (Hload2 : ensure_loaded e2 w2 = Ret tt w2).
  { apply ensure_loaded_nonempty. intros Hnil. rewrite Hnil in Hg. discriminate. }
  unfold list_filters. step_m. rewrite Hload2. cbn beta iota.
  rewrite Hu2, Hg. cbn [default from_option id].
  assert (Htruthy : py_truthy (PDict (table ++ [(trigger, PDict (make_filter_data e u (user_data w)))])) = true)
    by (by destruct table).
  rewrite Htruthy. cbn [negb py_items]. step_m. cbn beta iota.
  rewrite list_lines_app, Hold. cbn [list_lines].
  rewrite list_line_created. cbn [app]. rewrite Nat.add_1_l. reflexivity.
Qed.

Lemma created_filter_is_listed_demo :
  exists w',
    receive_filter_trigger demo_env (demo_update " Welcome ") demo_world_trigger =
      Ret END w' /\
    forall (e2 : env) (u2 : update) (w2 : world),
      upd_chat_id u2 = 7 ->
      filters_cache w2 = filters_cache w' ->
      list_filters e2 u2 w2 =
      Ret tt (set_sent
                (sent w2 ++
                 [(7, MsgFilterList
                        ([ {| line_number := 1; line_trigger := "hello";
                              line_image := false; line_buttons := None |};
                           {| line_number := 2; line_trigger := "rules";
                              line_image := false; line_buttons := None |} ] ++
                         [ {| line_number := 3; line_trigger := "welcome";
                              line_image := false; line_buttons := None |} ]))])
                w2).
Proof.
  apply (created_filter_is_listed demo_env (demo_update " Welcome ")
           demo_world_trigger demo_world_trigger 7
           [("hello"%string, demo_filter); ("rules"%string, demo_filter)]);
    reflexivity.
Defined.

Lemma ensure_loaded_raise (e : env) (w w1 : world) (x : exn) :
  ensure_loaded e w = Raise x w1 -> w1 = w.
Proof.
  unfold ensure_loaded, load_filters. step_m.
  destruct (filters_cache w); [|discriminate].
  destruct (filters_file w) as [content|]; simpl; [|discriminate].
  destruct (read_fails e); [discriminate|].
  destruct content as [|data|]; simpl;
    [discriminate | | by intros [= _ <-]].
  destruct (py_items data) as [items|]; simpl; [|by intros [= _ <-]].
  destruct (Dict.remap_partial Text.int_of_str items []); simpl;
    [discriminate | by intros [= _ <-]].
Qed.

(** X21: whatever it answers, and also when it raises, [/filters] leaves
    the file, the sessions, the job queue, the image files and the
    limiter's table as they were, and a cache that was loaded is not
    changed either. *)
Theorem list_filters_only_reads (e : env) (u : update) (w : world) :
  match list_filters e u w with
  | Ret _ w' | Raise _ w' =>
      filters_file w' = filters_file w /\ user_data w' = user_data w /\
      job_queue w' = job_queue w /\ image_files w' = image_files w /\
      user_request_tracker w' = user_request_tracker w /\
      (filters_cache w <> [] -> filters_cache w' = filters_cache w)
  end.
Proof.
  unfold list_filters. step_m.
  destruct (ensure_loaded e w) as [[] w1|x w1] eqn:Hload; cbn beta iota zeta.
  - destruct (ensure_loaded_frame e w w1 Hload) as (Hf & Hud & _ & Hj & Hi & Ht).
    assert (Hc : filters_cache w <> [] -> filters_cache w1 = filters_cache w).
    { intros Hne. rewrite (ensure_loaded_nonempty e w Hne) in Hload. congruence. }
    destruct (negb _); [done|].
    destruct (py_items _) as [items|]; step_m; cbn beta iota; [|done].
    destruct (list_lines 1 items []); step_m; done.
  - apply ensure_loaded_raise in Hload as ->. done.
Qed.

(** X22: nothing in the handlers catches what [load_filters] raises.
    While the cache is empty and the file is an object with a key that
    is not an integer literal, [/filters] raises ValueError, and so does
    every trigger submitted in the form; the state is left as it was. *)
Theorem foreign_key_breaks_handlers
    (e : env) (u : update) (w : world) (items : list (string * pyval)) (k : string) :
  filters_cache w = [] ->
  filters_file w = Some (Document (PDict items)) ->
  read_fails e = false ->
  k ∈ Dict.keys items -> Text.int_of_str k = None ->
  list_filters e u w = Raise ValueError w /\
  (is_Some (filter_chat_id (user_data w)) ->
   receive_filter_trigger e u w = Raise ValueError w).
Proof.
  intros Hcache Hfile Hread Hin Hk.
  assert (Hload : ensure_loaded e w = Raise ValueError w).
  { unfold ensure_loaded, load_filters. step_m. rewrite Hcache, Hfile, Hread. simpl.
    assert (Hnone : Dict.remap_partial Text.int_of_str items [] = None)
      by (apply remap_partial_None; eauto).
    by rewrite Hnone. }
  split.
  - unfold list_filters. step_m. by rewrite Hload.
  - intros [chat Hchat]. unfold receive_filter_trigger. step_m.
    rewrite Hchat. simpl. by rewrite Hload.
Qed.

Lemma foreign_key_breaks_handlers_demo :
  let w := set_cache []
             (set_file (Some (Document (PDict [("seven"%string, PDict [])])))
                demo_world_trigger) in
  list_filters demo_env (demo_update "/filters") w = Raise ValueError w /\
  (is_Some (filter_chat_id (user_data w)) ->
   receive_filter_trigger demo_env (demo_update "/filters") w = Raise ValueError w).
Proof.
  apply (foreign_key_breaks_handlers demo_env (demo_update "/filters")
           (set_cache []
              (set_file (Some (Document (PDict [("seven"%string, PDict [])])))
                 demo_world_trigger))
           [("seven"%string, PDict [])] "seven"); try reflexivity.
  apply list_elem_of_singleton. reflexivity.
Defined.

(** ** The shortest way through the form *)

(** The world a creation leaves, field by field. *)
Lemma receive_filter_trigger_world
    (e : env) (u : update) (w : world) (chat_id : Z)
    (table : list (string * pyval)) :
  let trigger := Text.lower (Text.strip (upd_text u)) in
  let store :=
    Dict.set chat_id
      (PDict (Dict.set trigger (PDict (make_filter_data e u (user_data w))) table))
      (filters_cache w) in
  filter_chat_id (user_data w) = Some chat_id ->
  filters_cache w <> [] ->
  default (PDict []) (Dict.get chat_id (filters_cache w)) = PDict table ->
  Dict.mem trigger table = false ->
  exists w',
    receive_filter_trigger e u w = Ret END w' /\
    filters_cache w' = store /\ user_data w' = user_data_empty /\
    job_queue w' = job_queue w /\ image_files w' = image_files w /\
    user_request_tracker w' = user_request_tracker w.
Proof.
  intros trigger store Hchat Hne Htable Hmem.
  pose proof (ensure_loaded_nonempty e w Hne) as Hload.
  unfold receive_filter_trigger. step_m. rewrite Hchat. simpl.
  rewrite Hload. simpl. rewrite Htable. simpl.
  fold trigger. rewrite Hmem. rewrite length_fmap.
  destruct (Dict.get chat_id (filters_cache w)) as [v|] eqn:Hg; simpl in Htable.
  - subst v.
    assert (Hm : Dict.mem chat_id (filters_cache w) = true)
      by (apply DictFacts.mem_true; eapply DictFacts.get_Some_keys, Hg).
    rewrite Hm. simpl. rewrite Hg. simpl. unfold save_filters. step_m.
    destruct (write_result e); simpl; eexists; (split; [reflexivity|]);
      repeat split.
  - injection Htable as <-.
    assert (Hm : Dict.mem chat_id (filters_cache w) = false)
      by (apply DictFacts.mem_false, Hg).
    rewrite Hm. simpl. rewrite DictFacts.get_set_eq. simpl.
    rewrite set_set_eq. unfold save_filters. step_m.
    destruct (write_result e); simpl; eexists; (split; [reflexivity|]);
      repeat split.
Qed.

Lemma filter_own_timeout (name : string) (q : list job) (j : job) :
  job_name j = name ->
  List.filter (fun k => negb (String.eqb (job_name k) name)) (q ++ [j]) =
  List.filter (fun k => negb (String.eqb (job_name k) name)) q.
Proof.
  intros Hj. rewrite List.filter_app. simpl. rewrite Hj, String.eqb_refl. simpl.
  apply app_nil_r.
Qed.

(** Opening the form changes neither the cache nor the image files. *)
Lemma filter_command_opens_form_world (e : env) (u : update) (w : world) :
  (length (List.filter (in_window (clock e))
             (default [] (user_request_tracker w !! upd_user_id u))) < RATE_LIMIT)%nat ->
  in_group (upd_chat_type u) = false \/ admin e = true ->
  exists w',
    filter_command e u w = Ret AWAITING_IMAGE w' /\
    user_data w' =
      with_timeout_job (Some (timeout_name (upd_user_id u)))
        (with_chat_id (Some (upd_chat_id u)) (user_data w)) /\
    job_queue w' =
      job_queue w ++ [{| job_name := timeout_name (upd_user_id u); job_delay := 60;
                         job_chat_id := upd_chat_id u;
                         job_user_id := upd_user_id u |}] /\
    filters_cache w' = filters_cache w /\ image_files w' = image_files w.
Proof.
  intros Hroom Hmay. rewrite filter_command_rule.
  destruct (Nat.ltb_spec
              (length (List.filter (in_window (clock e))
                         (default [] (user_request_tracker w !! upd_user_id u))))
              RATE_LIMIT) as [_|Hge]; [|lia].
  assert (Hgate : in_group (upd_chat_type u) && negb (admin e) = false).
  { destruct Hmay as [-> | ->]; [reflexivity | apply andb_false_r]. }
  rewrite Hgate. eexists. split; [reflexivity|]. repeat split.
Qed.

(** X23: [/filter], then [/skip] for the image, [/skip] for the buttons
    and a trigger text the chat does not have yet, make a filter with
    no image and no buttons, stored for the chat in which [/filter] was
    sent, under the normalized trigger, with the sender of the trigger
    as author.  At the end the session is empty, the timeout job of the
    user is gone from the queue and no image file has been written. *)
Theorem shortest_form_creates_bare_filter
    (e1 e2 e3 e4 : env) (u1 u2 u3 u4 : update) (w : world)
    (table : list (string * pyval)) :
  let uid := upd_user_id u1 in
  let chat := upd_chat_id u1 in
  let trigger := Text.lower (Text.strip (upd_text u4)) in
  (length (List.filter (in_window (clock e1))
             (default [] (user_request_tracker w !! uid))) < RATE_LIMIT)%nat ->
  in_group (upd_chat_type u1) = false \/ admin e1 = true ->
  upd_text u3 = "/skip"%string ->
  filters_cache w <> [] ->
  default (PDict []) (Dict.get chat (filters_cache w)) = PDict table ->
  Dict.mem trigger table = false ->
  exists w1 w2 w3 w4 table',
    filter_command e1 u1 w = Ret AWAITING_IMAGE w1 /\
    skip_image e2 u2 w1 = Ret AWAITING_BUTTONS w2 /\
    receive_buttons e3 u3 w2 = Ret AWAITING_FILTER_TRIGGER w3 /\
    receive_filter_trigger e4 u4 w3 = Ret END w4 /\
    Dict.get chat (filters_cache w4) = Some (PDict table') /\
    Dict.get trigger table' =
      Some (PDict [("image"%string, PNone); ("buttons"%string, PList []);
                   ("created_by"%string, PInt (upd_user_id u4));
                   ("created_at"%string, PStr (iso_now e4))]) /\
    user_data w4 = user_data_empty /\
    job_queue w4 =
      List.filter (fun j => negb (String.eqb (job_name j) (timeout_name uid)))
                  (job_queue w) /\
    image_files w4 = image_files w.
Proof.
  intros uid chat trigger Hroom Hmay Hskip Hne Htable Hmem.
  destruct (filter_command_opens_form_world e1 u1 w Hroom Hmay)
    as (w1 & Hrun1 & Hud1 & Hq1 & Hc1 & Hi1).
  fold uid chat in Hud1, Hq1.
  assert (Hname : timeout_job (user_data w1) = Some (timeout_name uid))
    by (by rewrite Hud1).
  set (w2 := set_sent (sent (set_jobs
                 (List.filter (fun j => negb (String.eqb (job_name j) (timeout_name uid)))
                    (job_queue w1)) w1) ++ [(upd_chat_id u2, MsgSkippedImage)])
               (set_user_data (with_image (Some None) (Some None) (user_data w1))
                  (set_jobs
                     (List.filter (fun j => negb (String.eqb (job_name j) (timeout_name uid)))
                        (job_queue w1)) w1))).
  assert (Hrun2 : skip_image e2 u2 w1 = Ret AWAITING_BUTTONS w2).
  { unfold skip_image. step_m. rewrite (remove_timeout_jobs_named uid w1 Hname).
    reflexivity. }
  set (w3 := set_sent (sent w2 ++ [(upd_chat_id u3, MsgSkippedButtons)])
               (set_user_data (with_buttons (Some []) (user_data w2)) w2)).
  assert (Hrun3 : receive_buttons e3 u3 w2 = Ret AWAITING_FILTER_TRIGGER w3).
  { unfold receive_buttons. rewrite Hskip. reflexivity. }
  assert (Hcache3 : filters_cache w3 = filters_cache w) by exact Hc1.
  assert (Hud3 : user_data w3 =
                 with_buttons (Some [])
                   (with_image (Some None) (Some None) (user_data w1)))
    by reflexivity.
  destruct (receive_filter_trigger_world e4 u4 w3 chat table)
    as (w4 & Hrun4 & Hc4 & Hud4 & Hq4 & Hi4 & _).
  { by rewrite Hud3, Hud1. }
  { by rewrite Hcache3. }
  { by rewrite Hcache3. }
  { exact Hmem. }
  exists w1, w2, w3, w4.
  eexists. split; [exact Hrun1|]. split; [exact Hrun2|]. split; [exact Hrun3|].
  split; [exact Hrun4|]. split; [rewrite Hc4; apply DictFacts.get_set_eq|].
  split.
  - rewrite DictFacts.get_set_eq. rewrite Hud3, Hud1. reflexivity.
  - split; [exact Hud4|]. split.
    + rewrite Hq4. change (job_queue w3) with
        (List.filter (fun j => negb (String.eqb (job_name j) (timeout_name uid)))
           (job_queue w1)).
      rewrite Hq1. by apply filter_own_timeout.
    + rewrite Hi4. exact Hi1.
Qed.

Lemma shortest_form_creates_bare_filter_demo :
  exists w1 w2 w3 w4 table',
    filter_command demo_env (demo_update "/filter") demo_world_stopped =
      Ret AWAITING_IMAGE w1 /\
    skip_image demo_env (demo_update "/skip") w1 = Ret AWAITING_BUTTONS w2 /\
    receive_buttons demo_env (demo_update "/skip") w2 =
      Ret AWAITING_FILTER_TRIGGER w3 /\
    receive_filter_trigger demo_env (demo_update " Welcome ") w3 = Ret END w4 /\
    Dict.get 7 (filters_cache w4) = Some (PDict table') /\
    Dict.get "welcome"%string table' =
      Some (PDict [("image"%string, PNone); ("buttons"%string, PList []);
                   ("created_by"%string, PInt 7);
                   ("created_at"%string, PStr "2024-01-01T12:00:00")]) /\
    user_data w4 = user_data_empty /\
    job_queue w4 =
      List.filter (fun j => negb (String.eqb (job_name j) (timeout_name 7)))
                  (job_queue demo_world_stopped) /\
    image_files w4 = image_files demo_world_stopped.
Proof.
  apply (shortest_form_creates_bare_filter demo_env demo_env demo_env demo_env
           (demo_update "/filter") (demo_update "/skip") (demo_update "/skip")
           (demo_update " Welcome ") demo_world_stopped
           [("hello"%string, demo_filter); ("rules"%string, demo_filter)]).
  - vm_compute. lia.
  - left. reflexivity.
  - reflexivity.
  - discriminate.
  - reflexivity.
  - reflexivity.
Defined.
